(** * mly.fyi: the send-email route and the session middleware

    A shallow embedding of
    - [src/pages/api/v1/emails/send.ts] ([validate], [handle], [POST]) and
    - [src/middleware.ts] ([onRequest]),
    followed by the properties of the delivery-logging pipeline and of the
    session resolver.

    Conventions of the embedding.
    - JavaScript strings are [string]; a character stands for the UTF-16 code
      unit of the same number, so the strings covered are those over code
      units below 256.
    - [undefined] and [null] of a nullable column or an optional field are
      [None].
    - [async] functions run to completion one after the other; a computation
      is a function from the [World] (datastore, counters of the
      nondeterministic collaborators) to a completion, a new world and the
      list of effects it performed, in order. *)

From Stdlib Require Import List String Ascii Bool Arith ZArith Lia DecimalString.
Import ListNotations.
Open Scope string_scope.
Open Scope list_scope.
Open Scope nat_scope.

Set Implicit Arguments.

(** ** JavaScript strings *)

Module Js.

(** [s.split(sep)] for a separator of one code unit: always a non-empty
    array, ["".split("@")] is [[""]]. *)
Fixpoint split (sep : ascii) (s : string) : list string :=
  match s with
  | EmptyString => [EmptyString]
  | String c s' =>
      if Ascii.eqb c sep then EmptyString :: split sep s'
      else match split sep s' with
           | h :: t => String c h :: t
           | [] => [String c EmptyString]
           end
  end.

(** [a[i]]: [undefined] outside the array. *)
Definition index {A : Type} (a : list A) (i : nat) : option A := nth_error a i.

(** Code units that [String.prototype.trim] removes, below 256: TAB, LF,
    VT, FF, CR, SPACE and NO-BREAK SPACE. *)
Definition isWhiteSpace (c : ascii) : bool :=
  let n := nat_of_ascii c in
  ((9 <=? n) && (n <=? 13)) || (n =? 32) || (n =? 160).

Fixpoint trimStart (s : string) : string :=
  match s with
  | EmptyString => EmptyString
  | String c s' => if isWhiteSpace c then trimStart s' else s
  end.

(** Drops trailing white space: a white-space unit is kept only when
    something that is kept follows it. *)
Fixpoint trimEnd (s : string) : string :=
  match s with
  | EmptyString => EmptyString
  | String c s' =>
      match trimEnd s' with
      | EmptyString => if isWhiteSpace c then EmptyString else String c EmptyString
      | r => String c r
      end
  end.

Definition trim (s : string) : string := trimEnd (trimStart s).

(** [toLowerCase] on code units below 256: A-Z, and the Latin-1 capitals
    0xC0-0xDE without the multiplication sign 0xD7. *)
Definition lowerUnit (c : ascii) : ascii :=
  let n := nat_of_ascii c in
  if ((65 <=? n) && (n <=? 90))
     || ((192 <=? n) && (n <=? 222) && negb (n =? 215))
  then ascii_of_nat (n + 32) else c.

Fixpoint toLowerCase (s : string) : string :=
  match s with
  | EmptyString => EmptyString
  | String c s' => String (lowerUnit c) (toLowerCase s')
  end.

(** Truthiness of a possibly missing string: [undefined], [null] and [""]
    are falsy. *)
Definition truthy (v : option string) : bool :=
  match v with
  | Some s => negb (String.eqb s "")
  | None => false
  end.

(** [if (!v) throw ...] followed by uses of [v]: the string a truthy [v]
    holds, [None] for a falsy one. *)
Definition whenTruthy (v : option string) : option string :=
  if truthy v then v else None.

(** A template literal prints [undefined] by name. *)
Definition show (v : option string) : string :=
  match v with
  | Some s => s
  | None => "undefined"
  end.

(** [{...o, k: v}] on an object kept as its list of own properties in
    insertion order: an existing key keeps its place and takes the new
    value, a new key goes last. *)
Fixpoint set (k v : string) (o : list (string * string)) : list (string * string) :=
  match o with
  | [] => [(k, v)]
  | (k', v') :: o' =>
      if String.eqb k' k then (k, v) :: o' else (k', v') :: set k v o'
  end.

Fixpoint get {A : Type} (k : string) (o : list (string * A)) : option A :=
  match o with
  | [] => None
  | (k', v) :: o' => if String.eqb k' k then Some v else get k o'
  end.

Fixpoint remove {A : Type} (k : string) (o : list (string * A)) : list (string * A) :=
  match o with
  | [] => []
  | (k', v) :: o' =>
      if String.eqb k' k then remove k o' else (k', v) :: remove k o'
  end.

End Js.

(** The sender's domain, [from.split('@')[1]] (send.ts, line 78). *)
Definition fromDomain (from : string) : option string :=
  Js.index (Js.split "@" from) 1.

(** What the specification calls the domain: everything after the first
    ['@'] of [from], through the end of the string. *)
Fixpoint afterFirstAt (from : string) : string :=
  match from with
  | EmptyString => EmptyString
  | String c s => if Ascii.eqb c "@" then s else afterFirstAt s
  end.

(** The part of a string before its first ['@'] (all of it when there is
    none). *)
Fixpoint beforeFirstAt (s : string) : string :=
  match s with
  | EmptyString => EmptyString
  | String c s' => if Ascii.eqb c "@" then EmptyString else String c (beforeFirstAt s')
  end.

Fixpoint containsAt (s : string) : bool :=
  match s with
  | EmptyString => false
  | String c s' => Ascii.eqb c "@" || containsAt s'
  end.

(** ** Data model *)

(** A value of a JSON request body. *)
#[local] Set Warnings "-register-all".
Inductive JsVal : Type :=
| JUndefined
| JNull
| JBool (b : bool)
| JNumber (n : Z)
| JString (s : string)
| JArray (l : list JsVal)
| JObject (o : list (string * JsVal)).
#[local] Set Warnings "register-all".

(** A property of a raw object, [undefined] when it has none. *)
Definition prop (k : string) (o : list (string * JsVal)) : JsVal :=
  match Js.get k o with
  | Some v => v
  | None => JUndefined
  end.

(** [to] and [replyTo] of [SendEmailBody]: one address, or an array of
    them ([handle] tests [Array.isArray]). *)
Inductive Recipients : Type :=
| One (address : string)
| Many (addresses : list string).

Definition isArray (r : Recipients) : bool :=
  match r with
  | One _ => false
  | Many _ => true
  end.

(** [Array.isArray] of an optional field: [undefined] is no array. *)
Definition isArrayOpt (r : option Recipients) : bool :=
  match r with
  | Some r => isArray r
  | None => false
  end.

Record SendEmailBody : Type := {
  from : string;
  to : Recipients;
  replyTo : option Recipients;
  subject : string;
  text : option string;
  html : option string;
  headers : list (string * string)
}.

(** The [users] table (db/schema/users.ts). *)
Module User.
Inductive AuthProvider : Type := github | google | email_.
Record t : Type := {
  id : string;
  name : string;
  email : string;
  password : string;
  isEnabled : bool;
  authProvider : AuthProvider;
  verificationCode : option string;
  verificationCodeAt : option string;
  resetPasswordCode : option string;
  resetPasswordCodeAt : option string;
  verifiedAt : option Z;
  createdAt : Z;
  updatedAt : Z
}.
End User.

(** The columns [onRequest] selects: [id], [email], [name]. *)
Module CurrentUser.
Record t : Type := { id : string; email : string; name : string }.
End CurrentUser.

(** The columns of [projects] that [handle] reads. *)
Module Project.
Record t : Type := {
  id : string;
  accessKeyId : option string;
  secretAccessKey : option string;
  region : option string
}.
End Project.

(** The columns of [projectIdentities] that [handle] reads. *)
Module ProjectIdentity.
Record t : Type := {
  projectId : string;
  domain : string;
  status : string;
  configurationSetName : option string
}.
End ProjectIdentity.

(** What [authenticateApiKey] returns, as far as [handle] reads it. *)
Module ProjectApiKey.
Record t : Type := { id : string; projectId : string }.
End ProjectApiKey.

(** A row of [emailLogs] as [handle] writes it; [messageId] is left out on
    the failure path. *)
Module EmailLog.
Record t : Type := {
  id : string;
  messageId : option string;
  projectId : string;
  apiKeyId : string;
  from : string;
  to : Recipients;
  replyTo : option Recipients;
  subject : string;
  text : option string;
  html : option string;
  status : string;
  createdAt : Z;
  updatedAt : Z
}.
End EmailLog.

Module EmailLogEvent.
Record t : Type := {
  id : string;
  emailLogId : string;
  email : Recipients;
  type : string;
  timestamp : Z
}.
End EmailLogEvent.

(** Request-scoped state the middleware fills in. *)
Record Locals : Type := {
  currentUser : option CurrentUser.t;
  currentUserId : option string
}.

Record APIContext : Type := {
  requestHeaders : list (string * string);
  cookies : list (string * string);
  locals : Locals
}.

(** [RouteParams<B>]: what the route wrapper hands to [validate] and
    [handle]. *)
Record RouteParams (B : Type) : Type := {
  body : B;
  userId : option string;
  user : option CurrentUser.t;
  context : APIContext
}.

(** Thrown values. *)
Inductive Exn : Type :=
| HttpError (type message : string)
| ValidationError (details : list (string * string))
| TypeError (message : string)
| DatastoreError (message : string)
| InvalidToken (message : string).

(** The provider adapter's configuration and result, [{ data, error }]. *)
Record SesConfig : Type := {
  ses_accessKeyId : string;
  ses_secretAccessKey : string;
  ses_region : string
}.

Record ProviderConfig : Type := { provider : string; ses : SesConfig }.

Record SendEmailData : Type := { data_messageId : string }.
Record SendEmailError : Type := { error_message : string }.

Record SendEmailResult : Type := {
  data : option SendEmailData;
  error : option SendEmailError
}.

Record SendEmailResponse : Type := { response_id : string }.

(** [json(body)] of lib/response: a response carrying [body]. *)
Inductive JsonResponse (A : Type) : Type := json (payload : A).

Record TokenPayload : Type := { token_id : string }.

(** The datastore and the clock of the collaborators.  [tick] counts the
    effects performed so far; what a collaborator answers may depend on it. *)
Record World : Type := {
  users : list User.t;
  projects : list Project.t;
  projectIdentities : list ProjectIdentity.t;
  emailLogs : list EmailLog.t;
  emailLogEvents : list EmailLogEvent.t;
  tick : nat
}.

(** Effects, in the order a run performs them. *)
Inductive Event : Type :=
| EAuthenticate (ctx : APIContext)
| EFindProject (id : string)
| EFindIdentity (projectId : string) (domain : option string)
| EFindUser (id : string)
| EInsertEmailLog (row : EmailLog.t)
| EInsertEmailLogEvent (row : EmailLogEvent.t)
| ESendEmail (config : ProviderConfig) (email : SendEmailBody) (result : SendEmailResult)
| EDecodeToken (token : string)
| EConsoleLog (message : string) (arg : option CurrentUser.t)
| ELogError (e : Exn).

(** The collaborators that are imported from outside the two files:
    authentication, the provider adapter, id generation, the clock, the
    datastore's failures, Joi's e-mail rule, the token decoder and the
    build's constants. *)
Record Env : Type := {
  authenticateApiKey : APIContext -> World -> Exn + ProjectApiKey.t;
  sendEmail : nat -> ProviderConfig -> SendEmailBody -> SendEmailResult;
  newIdAt : nat -> string -> string;
  nowAt : nat -> Z;
  dbFaultAt : nat -> option string;
  emailRule : string -> bool;
  decodeToken : nat -> string -> Exn + TokenPayload;
  DEFAULT_SES_REGION : string;
  TOKEN_COOKIE_NAME : string;
  DEV : bool
}.

(** ** Computations *)

(** How a call ends: with a value, or by throwing. *)
Inductive Completion (A : Type) : Type :=
| Normal (a : A)
| Throw (e : Exn).

Arguments Throw {A} e.

(** A computation: from the world to its completion, the new world and the
    effects performed. *)
Definition M (A : Type) : Type := World -> Completion A * World * list Event.

Definition ret {A : Type} (a : A) : M A := fun w => (Normal a, w, []).

Definition throw {A : Type} (e : Exn) : M A := fun w => (Throw e, w, []).

Definition bind {A B : Type} (m : M A) (k : A -> M B) : M B :=
  fun w =>
    match m w with
    | (Normal a, w1, evs1) =>
        match k a w1 with
        | (c, w2, evs2) => (c, w2, evs1 ++ evs2)
        end
    | (Throw e, w1, evs1) => (Throw e, w1, evs1)
    end.

(** [try { m } catch (error) { h(error) }]. *)
Definition tryCatch {A : Type} (m : M A) (h : Exn -> M A) : M A :=
  fun w =>
    match m w with
    | (Normal a, w1, evs1) => (Normal a, w1, evs1)
    | (Throw e, w1, evs1) =>
        match h e w1 with
        | (c, w2, evs2) => (c, w2, evs1 ++ evs2)
        end
    end.

Declare Scope js_scope.
Delimit Scope js_scope with js.
Notation "x <- m ;; k" := (bind m (fun x => k))
  (at level 61, m at next level, right associativity) : js_scope.
Notation "m ;;; k" := (bind m (fun _ => k))
  (at level 61, right associativity) : js_scope.
Open Scope js_scope.

Definition advance (w : World) : World :=
  {| users := users w;
     projects := projects w;
     projectIdentities := projectIdentities w;
     emailLogs := emailLogs w;
     emailLogEvents := emailLogEvents w;
     tick := S (tick w) |}.

Definition withEmailLog (row : EmailLog.t) (w : World) : World :=
  {| users := users w;
     projects := projects w;
     projectIdentities := projectIdentities w;
     emailLogs := emailLogs w ++ [row];
     emailLogEvents := emailLogEvents w;
     tick := S (tick w) |}.

Definition withEmailLogEvent (row : EmailLogEvent.t) (w : World) : World :=
  {| users := users w;
     projects := projects w;
     projectIdentities := projectIdentities w;
     emailLogs := emailLogs w;
     emailLogEvents := emailLogEvents w ++ [row];
     tick := S (tick w) |}.

(** The row [findFirst] answers with: the first one that satisfies the
    [where] clause. *)
Definition selectProject (w : World) (id : string) : option Project.t :=
  find (fun p => String.eqb (Project.id p) id) (projects w).

(** An [undefined] domain is compared as SQL compares with NULL: no row
    equals it. *)
Definition selectIdentity (w : World) (projectId : string) (domain : option string)
  : option ProjectIdentity.t :=
  find (fun i =>
          String.eqb (ProjectIdentity.projectId i) projectId
          && match domain with
             | Some d => String.eqb (ProjectIdentity.domain i) d
             | None => false
             end)
       (projectIdentities w).

(** The columns [id], [email] and [name] of the first user with this id. *)
Definition selectUser (w : World) (id : string) : option CurrentUser.t :=
  option_map
    (fun u => {| CurrentUser.id := User.id u;
                 CurrentUser.email := User.email u;
                 CurrentUser.name := User.name u |})
    (find (fun u => String.eqb (User.id u) id) (users w)).

Section Collaborators.

Variable env : Env.

(** A datastore call: it throws when the datastore is at fault at this
    moment, and answers from the tables otherwise. *)
Definition dbCall {A : Type} (ev : Event) (answer : World -> A) (after : World -> World) : M A :=
  fun w =>
    match dbFaultAt env (tick w) with
    | Some msg => (Throw (DatastoreError msg), advance w, [ev])
    | None => (Normal (answer w), after w, [ev])
    end.

(** [db.query.projects.findFirst({ where: eq(fields.id, id) })]. *)
Definition findFirstProject (id : string) : M (option Project.t) :=
  dbCall (EFindProject id) (fun w => selectProject w id) advance.

(** [db.query.projectIdentities.findFirst] on [projectId] and [domain]. *)
Definition findFirstIdentity (projectId : string) (domain : option string)
  : M (option ProjectIdentity.t) :=
  dbCall (EFindIdentity projectId domain)
    (fun w => selectIdentity w projectId domain) advance.

(** [db.query.users.findFirst] on [id], selecting [id], [email], [name]. *)
Definition findFirstUser (id : string) : M (option CurrentUser.t) :=
  dbCall (EFindUser id) (fun w => selectUser w id) advance.

(** [db.insert(emailLogs).values(row)]. *)
Definition insertEmailLog (row : EmailLog.t) : M unit :=
  dbCall (EInsertEmailLog row) (fun _ => tt) (withEmailLog row).

(** [db.insert(emailLogEvents).values(row)]. *)
Definition insertEmailLogEvent (row : EmailLogEvent.t) : M unit :=
  dbCall (EInsertEmailLogEvent row) (fun _ => tt) (withEmailLogEvent row).

Definition authenticate (ctx : APIContext) : M ProjectApiKey.t :=
  fun w =>
    match authenticateApiKey env ctx w with
    | inl e => (Throw e, advance w, [EAuthenticate ctx])
    | inr key => (Normal key, advance w, [EAuthenticate ctx])
    end.

Definition callSendEmail (config : ProviderConfig) (email : SendEmailBody) : M SendEmailResult :=
  fun w =>
    let r := sendEmail env (tick w) config email in
    (Normal r, advance w, [ESendEmail config email r]).

Definition newId (prefix : string) : M string :=
  fun w => (Normal (newIdAt env (tick w) prefix), advance w, []).

(** [new Date()]. *)
Definition newDate : M Z :=
  fun w => (Normal (nowAt env (tick w)), advance w, []).

Definition callDecodeToken (token : string) : M TokenPayload :=
  fun w =>
    match decodeToken env (tick w) token with
    | inl e => (Throw e, advance w, [EDecodeToken token])
    | inr p => (Normal p, advance w, [EDecodeToken token])
    end.

Definition consoleLog (message : string) (arg : option CurrentUser.t) : M unit :=
  fun w => (Normal tt, w, [EConsoleLog message arg]).

Definition logError (e : Exn) : M unit :=
  fun w => (Normal tt, w, [ELogError e]).

End Collaborators.

(** ** The Joi schema of [validate]

    Joi's behaviour under [convert] (its default), as far as the schema of
    [validate] uses it.  A string schema first coerces a string (case, then
    [trim]); then [undefined] is judged by presence; then a value listed by
    [allow] is accepted; then the type is checked (a non-string is
    [string.base], [""] is [string.empty]); then the rules run ([email]). *)
Module Joi.

Record StringSchema : Type := {
  lowercase : bool;
  email : bool;
  allowEmpty : bool;
  required : bool
}.

(** The outcome for one key: the error details, each a path and an error
    type, and the converted value ([None] for [undefined]). *)
Record Outcome (A : Type) : Type := {
  errors : list (string * string);
  value : option A
}.

Definition ok {A : Type} (v : option A) : Outcome A :=
  {| errors := []; value := v |}.

Definition fail {A : Type} (path code : string) : Outcome A :=
  {| errors := [(path, code)]; value := None |}.

Definition string_ (emailRule : string -> bool) (sch : StringSchema)
  (path : string) (v : JsVal) : Outcome string :=
  match v with
  | JUndefined => if required sch then fail path "any.required" else ok None
  | JString s =>
      let s := if lowercase sch then Js.toLowerCase s else s in
      let s := Js.trim s in
      if String.eqb s "" then
        if allowEmpty sch then ok (Some s) else fail path "string.empty"
      else if email sch && negb (emailRule s) then fail path "string.email"
      else ok (Some s)
  | _ => fail path "string.base"
  end.

(** [Joi.string().trim().required()]. *)
Definition requiredString : StringSchema :=
  {| lowercase := false; email := false; allowEmpty := false; required := true |}.

(** [Joi.string().trim().lowercase().email().required()]. *)
Definition requiredEmail : StringSchema :=
  {| lowercase := true; email := true; allowEmpty := false; required := true |}.

(** [Joi.string().trim().lowercase().email().optional()]. *)
Definition optionalEmail : StringSchema :=
  {| lowercase := true; email := true; allowEmpty := false; required := false |}.

(** [Joi.string().trim().allow('').optional()]. *)
Definition optionalText : StringSchema :=
  {| lowercase := false; email := false; allowEmpty := true; required := false |}.

(** [Joi.object().pattern(key, value).optional().default({})] with both
    schemas [Joi.string().trim().required()], under [stripUnknown]: a key
    that the key schema rejects is unknown and stripped; the value of any
    other key must satisfy the value schema and is replaced by its trimmed
    form. *)
Definition headerEntry (emailRule : string -> bool)
  (acc : Outcome (list (string * string))) (kv : string * JsVal)
  : Outcome (list (string * string)) :=
  let (k, v) := kv in
  if String.eqb (Js.trim k) "" then acc
  else
    let r := string_ emailRule requiredString ("headers." ++ k)%string v in
    {| errors := errors acc ++ errors r;
       value := match value acc, value r with
                | Some o, Some s => Some (Js.set k s o)
                | other, _ => other
                end |}.

Definition headers_ (emailRule : string -> bool) (v : JsVal)
  : Outcome (list (string * string)) :=
  match v with
  | JUndefined => ok (Some [])
  | JObject o => fold_left (headerEntry emailRule) o (ok (Some []))
  | _ => fail "headers" "object.base"
  end.

End Joi.

(** ** The route: send.ts *)

Section SendRoute.

Variable env : Env.

(** [schema.validate(params.body, { abortEarly: false, stripUnknown: true })]
    (send.ts, lines 25-41): [abortEarly: false] reports the errors of all
    keys, in the order of the schema; [stripUnknown] drops every other key of
    the body. *)
Definition schema (raw : list (string * JsVal)) : Joi.Outcome SendEmailBody :=
  let string_ := Joi.string_ (emailRule env) in
  let vFrom := string_ Joi.requiredString "from" (prop "from" raw) in
  let vTo := string_ Joi.requiredEmail "to" (prop "to" raw) in
  let vReplyTo := string_ Joi.optionalEmail "replyTo" (prop "replyTo" raw) in
  let vSubject := string_ Joi.requiredString "subject" (prop "subject" raw) in
  let vText := string_ Joi.optionalText "text" (prop "text" raw) in
  let vHtml := string_ Joi.optionalText "html" (prop "html" raw) in
  let vHeaders := Joi.headers_ (emailRule env) (prop "headers" raw) in
  {| Joi.errors :=
       Joi.errors vFrom ++ Joi.errors vTo ++ Joi.errors vReplyTo
       ++ Joi.errors vSubject ++ Joi.errors vText ++ Joi.errors vHtml
       ++ Joi.errors vHeaders;
     Joi.value :=
       match Joi.value vFrom, Joi.value vTo, Joi.value vSubject, Joi.value vHeaders with
       | Some from_, Some to_, Some subject_, Some headers_ =>
           Some {| from := from_;
                   to := One to_;
                   replyTo := option_map One (Joi.value vReplyTo);
                   subject := subject_;
                   text := Joi.value vText;
                   html := Joi.value vHtml;
                   headers := headers_ |}
       | _, _, _, _ => None
       end |}.

(** [validate] (send.ts, lines 24-55).  A schema without errors has a
    value; the last case is there for totality only. *)
Definition validate (params : RouteParams (list (string * JsVal)))
  : M (RouteParams SendEmailBody) :=
  let result := schema (body params) in
  match Joi.errors result, Joi.value result with
  | error_ :: errors_, _ => throw (ValidationError (error_ :: errors_))
  | [], Some value =>
      if negb (Js.truthy (text value)) && negb (Js.truthy (html value)) then
        throw (HttpError "bad_request" "Either text or html is required.")
      else
        ret {| body := value;
               userId := userId params;
               user := user params;
               context := context params |}
  | [], None => throw (ValidationError [])
  end.

(** The failure branch of [handle] (lines 134-157). *)
Definition logFailure (project : Project.t) (projectApiKey : ProjectApiKey.t)
  (body : SendEmailBody) (emailLogId emailLogEventId : string)
  (error : SendEmailError) : M (JsonResponse SendEmailResponse) :=
  id <- newId env "emailLog" ;;
  createdAt <- newDate env ;;
  updatedAt <- newDate env ;;
  insertEmailLog env
    {| EmailLog.id := id;
       EmailLog.messageId := None;
       EmailLog.projectId := Project.id project;
       EmailLog.apiKeyId := ProjectApiKey.id projectApiKey;
       EmailLog.from := from body;
       EmailLog.to := to body;
       EmailLog.replyTo := replyTo body;
       EmailLog.subject := subject body;
       EmailLog.text := text body;
       EmailLog.html := html body;
       EmailLog.status := "error";
       EmailLog.createdAt := createdAt;
       EmailLog.updatedAt := updatedAt |} ;;;
  timestamp <- newDate env ;;
  insertEmailLogEvent env
    {| EmailLogEvent.id := emailLogEventId;
       EmailLogEvent.emailLogId := emailLogId;
       EmailLogEvent.email := to body;
       EmailLogEvent.type := "error";
       EmailLogEvent.timestamp := timestamp |} ;;;
  throw (HttpError "bad_request" (error_message error)).

(** The success branch of [handle] (lines 159-184).  [data.messageId]
    throws a [TypeError] when the adapter returned neither [data] nor
    [error]. *)
Definition logSending (project : Project.t) (projectApiKey : ProjectApiKey.t)
  (body : SendEmailBody) (emailLogId emailLogEventId : string)
  (data : option SendEmailData) : M (JsonResponse SendEmailResponse) :=
  match data with
  | None => throw (TypeError "Cannot read properties of undefined (reading 'messageId')")
  | Some data =>
      createdAt <- newDate env ;;
      updatedAt <- newDate env ;;
      insertEmailLog env
        {| EmailLog.id := emailLogId;
           EmailLog.messageId := Some (data_messageId data);
           EmailLog.projectId := Project.id project;
           EmailLog.apiKeyId := ProjectApiKey.id projectApiKey;
           EmailLog.from := from body;
           EmailLog.to := to body;
           EmailLog.replyTo := replyTo body;
           EmailLog.subject := subject body;
           EmailLog.text := text body;
           EmailLog.html := html body;
           EmailLog.status := "sending";
           EmailLog.createdAt := createdAt;
           EmailLog.updatedAt := updatedAt |} ;;;
      timestamp <- newDate env ;;
      insertEmailLogEvent env
        {| EmailLogEvent.id := emailLogEventId;
           EmailLogEvent.emailLogId := emailLogId;
           EmailLogEvent.email := to body;
           EmailLogEvent.type := "sending";
           EmailLogEvent.timestamp := timestamp |} ;;;
      ret (json {| response_id := emailLogId |})
  end.

(** Lines 109-157 of [handle]: credentials, dispatch, the two ids, and the
    branch on [error]. *)
Definition dispatch (project : Project.t) (projectApiKey : ProjectApiKey.t)
  (body : SendEmailBody) (configurationSetName : string)
  : M (JsonResponse SendEmailResponse) :=
  match Js.whenTruthy (Project.accessKeyId project),
        Js.whenTruthy (Project.secretAccessKey project) with
  | Some accessKeyId, Some secretAccessKey =>
      r <- callSendEmail env
             {| provider := "ses";
                ses := {| ses_accessKeyId := accessKeyId;
                          ses_secretAccessKey := secretAccessKey;
                          ses_region :=
                            match Js.whenTruthy (Project.region project) with
                            | Some region => region
                            | None => DEFAULT_SES_REGION env
                            end |} |}
             {| from := from body;
                to := to body;
                replyTo := replyTo body;
                subject := subject body;
                text := text body;
                html := html body;
                headers := Js.set "X-SES-CONFIGURATION-SET" configurationSetName
                             (headers body) |} ;;
      emailLogId <- newId env "emailLog" ;;
      emailLogEventId <- newId env "emailLogEvent" ;;
      match error r with
      | Some error => logFailure project projectApiKey body emailLogId emailLogEventId error
      | None => logSending project projectApiKey body emailLogId emailLogEventId (data r)
      end
  | _, _ => throw (HttpError "bad_request" "Invalid project credentials")
  end.

(** [handle] (send.ts, lines 57-185). *)
Definition handle (params : RouteParams SendEmailBody)
  : M (JsonResponse SendEmailResponse) :=
  let body := body params in
  projectApiKey <- authenticate env (context params) ;;
  project <- findFirstProject env (ProjectApiKey.projectId projectApiKey) ;;
  match project with
  | None => throw (HttpError "not_found" "Project not found")
  | Some project =>
      if isArray (to body) || isArrayOpt (replyTo body) then
        throw (HttpError "bad_request" "Multiple recipients are not supported.")
      else
        let fromDomain := fromDomain (from body) in
        identity <- findFirstIdentity env (Project.id project) fromDomain ;;
        match identity with
        | None =>
            throw (HttpError "bad_request"
                     ("You are not allowed to send email from "
                      ++ Js.show fromDomain ++ " domain.")%string)
        | Some found =>
            if negb (String.eqb (ProjectIdentity.status found) "success") then
              throw (HttpError "bad_request"
                       ("Identity " ++ Js.show fromDomain ++ " is not verified.")%string)
            else
              match Js.whenTruthy (ProjectIdentity.configurationSetName found) with
              | None =>
                  throw (HttpError "bad_request"
                           ("Configuration set is not configured for "
                            ++ Js.show fromDomain ++ " domain.")%string)
              | Some configurationSetName =>
                  dispatch project projectApiKey body configurationSetName
              end
        end
  end.

(** Modelled from the spec: [handler(handle, validate)] of lib/handler is
    not among the sources; by the control flow of section 2 the route
    validates the body and then handles the validated request, and an error
    thrown by either reaches the response-formatting boundary. *)
Definition POST (params : RouteParams (list (string * JsVal)))
  : M (JsonResponse SendEmailResponse) :=
  validated <- validate params ;;
  handle validated.

End SendRoute.

(** ** The middleware: middleware.ts *)

Section Middleware.

Variable env : Env.

(** What the downstream of the middleware answers. *)
Variable Response : Type.

(** [context.cookies.delete(name)]. *)
Definition deleteCookie (name : string) (context : APIContext) : APIContext :=
  {| requestHeaders := requestHeaders context;
     cookies := Js.remove name (cookies context);
     locals := locals context |}.

(** [context.locals.currentUser = user; context.locals.currentUserId =
    user?.id]. *)
Definition setCurrentUser (user : CurrentUser.t) (context : APIContext) : APIContext :=
  {| requestHeaders := requestHeaders context;
     cookies := cookies context;
     locals := {| currentUser := Some user;
                  currentUserId := Some (CurrentUser.id user) |} |}.

(** How the [try] statement is left: by one of its [return next()], or by
    falling through to the [return next()] after the [if].  [next()] is an
    asynchronous call that is returned without [await], so its own failure
    is not caught by the [catch]; the statement therefore only decides the
    context [next] runs in. *)
Inductive Flow : Type :=
| ReturnNext (context : APIContext)
| FallThrough (context : APIContext).

Definition dashes : string := "--------------------".

(** The [try]/[catch] of [onRequest] (lines 12-40). *)
Definition resolveUser (context : APIContext) (id : string) : M Flow :=
  tryCatch
    (user <- findFirstUser env id ;;
     match user with
     | None => ret (ReturnNext (deleteCookie (TOKEN_COOKIE_NAME env) context))
     | Some user =>
         consoleLog dashes None ;;;
         consoleLog "Current User: " (Some user) ;;;
         consoleLog dashes None ;;;
         ret (FallThrough (setCurrentUser user context))
     end)
    (fun error =>
       if negb (DEV env) then
         ret (ReturnNext (deleteCookie (TOKEN_COOKIE_NAME env) context))
       else
         logError error ;;;
         ret (FallThrough context)).

(** [onRequest] (middleware.ts, lines 8-44).  [decodeToken] is called
    before the [try] statement is entered. *)
Definition onRequest (context : APIContext) (next : APIContext -> M Response)
  : M Response :=
  match Js.whenTruthy (Js.get (TOKEN_COOKIE_NAME env) (cookies context)) with
  | Some userAuthToken =>
      payload <- callDecodeToken env userAuthToken ;;
      flow <- resolveUser context (token_id payload) ;;
      match flow with
      | ReturnNext context' => next context'
      | FallThrough context' => next context'
      end
  | None => next context
  end.

End Middleware.

(** ** Vocabulary of the properties *)

(** The datastore answers every call. *)
Definition healthy (env : Env) : Prop := forall n, dbFaultAt env n = None.

(** Ids generated at different moments differ. *)
Definition freshIds (env : Env) : Prop :=
  forall n m p q, n <> m -> newIdAt env n p <> newIdAt env m q.

(** A raw field that holds content: a string that is not empty once
    trimmed. *)
Definition hasContent (v : JsVal) : bool :=
  match v with
  | JString s => negb (String.eqb (Js.trim s) "")
  | _ => false
  end.

Definition rawIsArray (v : JsVal) : bool :=
  match v with
  | JArray _ => true
  | _ => false
  end.

(** A run, with further effects performed before it. *)
Definition after {A : Type} (evs : list Event) (run : Completion A * World * list Event)
  : Completion A * World * list Event :=
  match run with
  | (c, w, evs') => (c, w, evs ++ evs')
  end.

(** Every user's [isEnabled] and [verifiedAt] overwritten. *)
Definition withUserFlags (enabled : bool) (verified : option Z) (w : World) : World :=
  {| users :=
       map (fun u =>
              {| User.id := User.id u;
                 User.name := User.name u;
                 User.email := User.email u;
                 User.password := User.password u;
                 User.isEnabled := enabled;
                 User.authProvider := User.authProvider u;
                 User.verificationCode := User.verificationCode u;
                 User.verificationCodeAt := User.verificationCodeAt u;
                 User.resetPasswordCode := User.resetPasswordCode u;
                 User.resetPasswordCodeAt := User.resetPasswordCodeAt u;
                 User.verifiedAt := verified;
                 User.createdAt := User.createdAt u;
                 User.updatedAt := User.updatedAt u |})
           (users w);
     projects := projects w;
     projectIdentities := projectIdentities w;
     emailLogs := emailLogs w;
     emailLogEvents := emailLogEvents w;
     tick := tick w |}.

(** ** A deployment to run the definitions on *)

Module Sample.

Definition decimal (n : nat) : string :=
  DecimalString.NilZero.string_of_uint (Nat.to_uint n).

Definition key : ProjectApiKey.t :=
  {| ProjectApiKey.id := "key_1"; ProjectApiKey.projectId := "project_1" |}.

(** The provider refuses the subject ["fail"]. *)
Definition env : Env :=
  {| authenticateApiKey := fun ctx _ =>
       match Js.get "X-Mly-Api-Key" (requestHeaders ctx) with
       | Some "mly_2dca2972bc6945d6b7cdffab0b58562a" => inr key
       | _ => inl (HttpError "unauthorized" "Invalid API key")
       end;
     sendEmail := fun n _ mail =>
       if String.eqb (subject mail) "fail" then
         {| data := None;
            error := Some {| error_message := "Email address is not verified." |} |}
       else
         {| data := Some {| data_messageId := ("ses-" ++ decimal n)%string |};
            error := None |};
     newIdAt := fun n prefix => (prefix ++ "_" ++ decimal n)%string;
     nowAt := fun n => (1700000000000 + Z.of_nat n)%Z;
     dbFaultAt := fun _ => None;
     emailRule := containsAt;
     decodeToken := fun _ token =>
       match token with
       | String "j" (String "w" (String "t" (String ":" id))) =>
           inr {| token_id := id |}
       | _ => inl (InvalidToken "Invalid Compact JWS")
       end;
     DEFAULT_SES_REGION := "us-east-1";
     TOKEN_COOKIE_NAME := "__mly_jt__";
     DEV := false |}.

(** A user, disabled and never verified. *)
Definition ada : User.t :=
  {| User.id := "user_1";
     User.name := "Ada";
     User.email := "ada@mly.fyi";
     User.password := "$2b$10$hash";
     User.isEnabled := false;
     User.authProvider := User.email_;
     User.verificationCode := None;
     User.verificationCodeAt := None;
     User.resetPasswordCode := None;
     User.resetPasswordCodeAt := None;
     User.verifiedAt := None;
     User.createdAt := 1690000000;
     User.updatedAt := 1690000000 |}.

Definition project : Project.t :=
  {| Project.id := "project_1";
     Project.accessKeyId := Some "AKIA";
     Project.secretAccessKey := Some "secret";
     Project.region := None |}.

Definition pending : ProjectIdentity.t :=
  {| ProjectIdentity.projectId := "project_1";
     ProjectIdentity.domain := "pending.dev";
     ProjectIdentity.status := "pending";
     ProjectIdentity.configurationSetName := None |}.

(** One project with credentials; a verified and configured identity, a
    pending one and a verified one without configuration set; one user. *)
Definition world : World :=
  {| users := [ada];
     projects := [project];
     projectIdentities :=
       [ {| ProjectIdentity.projectId := "project_1";
            ProjectIdentity.domain := "mly.fyi";
            ProjectIdentity.status := "success";
            ProjectIdentity.configurationSetName := Some "mly-tracking" |};
         pending;
         {| ProjectIdentity.projectId := "project_1";
            ProjectIdentity.domain := "bare.dev";
            ProjectIdentity.status := "success";
            ProjectIdentity.configurationSetName := None |} ];
     emailLogs := [];
     emailLogEvents := [];
     tick := 0 |}.

Definition apiContext : APIContext :=
  {| requestHeaders := [("X-Mly-Api-Key", "mly_2dca2972bc6945d6b7cdffab0b58562a")];
     cookies := [];
     locals := {| currentUser := None; currentUserId := None |} |}.

Definition request {B : Type} (b : B) : RouteParams B :=
  {| body := b; userId := None; user := None; context := apiContext |}.

(** The body of the example at the end of send.ts, with a chosen sender,
    subject and recipient. *)
Definition mail (sender : string) (recipient : Recipients) (subject_ : string) : SendEmailBody :=
  {| from := sender;
     to := recipient;
     replyTo := None;
     subject := subject_;
     text := Some "Hello World";
     html := Some "<p>Hello World</p>";
     headers := [] |}.

Definition rawMail (recipient text_ : JsVal) : list (string * JsVal) :=
  [ ("from", JString "hello@mly.fyi");
    ("to", recipient);
    ("subject", JString "Hello");
    ("text", text_) ].

Definition browser (token : string) : APIContext :=
  {| requestHeaders := [];
     cookies := [("__mly_jt__", token)];
     locals := {| currentUser := None; currentUserId := None |} |}.

(** A downstream that answers with the context it is run in. *)
Definition next (context : APIContext) : M APIContext := ret context.

End Sample.


(** ** Vocabulary of the further properties *)

(** What an effect is, without what it carries. *)
Inductive EffectKind : Type :=
| KAuthenticate
| KFindProject
| KFindIdentity
| KFindUser
| KInsertEmailLog
| KInsertEmailLogEvent
| KSendEmail
| KDecodeToken
| KConsoleLog
| KLogError.

Definition kindOf (e : Event) : EffectKind :=
  match e with
  | EAuthenticate _ => KAuthenticate
  | EFindProject _ => KFindProject
  | EFindIdentity _ _ => KFindIdentity
  | EFindUser _ => KFindUser
  | EInsertEmailLog _ => KInsertEmailLog
  | EInsertEmailLogEvent _ => KInsertEmailLogEvent
  | ESendEmail _ _ _ => KSendEmail
  | EDecodeToken _ => KDecodeToken
  | EConsoleLog _ _ => KConsoleLog
  | ELogError _ => KLogError
  end.

(** The effects of a complete run of [handle], in the order of the source. *)
Definition handleProtocol : list EffectKind :=
  [KAuthenticate; KFindProject; KFindIdentity; KSendEmail;
   KInsertEmailLog; KInsertEmailLogEvent].

(** The keys of the schema of [validate]. *)
Definition knownKeys : list string :=
  ["from"; "to"; "replyTo"; "subject"; "text"; "html"; "headers"].

(** The string keys of the schema, those checked by [Joi.string()]. *)
Definition stringKeys : list string :=
  ["from"; "to"; "replyTo"; "subject"; "text"; "html"].

(** A raw value that is present and is not a string. *)
Definition notAString (v : JsVal) : bool :=
  match v with
  | JUndefined => false
  | JString _ => false
  | _ => true
  end.

(** A string as [Joi.string().trim().required()] leaves it. *)
Definition trimmedNonEmpty (s : string) : Prop :=
  s <> "" /\ Js.trim s = s.

(** A header as the schema leaves it: a name that is not blank, a value
    that is trimmed and not empty. *)
Definition cleanHeader (kv : string * string) : Prop :=
  Js.trim (fst kv) <> "" /\ trimmedNonEmpty (snd kv).

(** The user columns the middleware exposes. *)
Definition exposed (u : User.t) : CurrentUser.t :=
  {| CurrentUser.id := User.id u;
     CurrentUser.email := User.email u;
     CurrentUser.name := User.name u |}.

(** ** Further deployments *)

Module Cases.

(** A project whose secret key is the empty string. *)
Definition keyless : Project.t :=
  {| Project.id := "project_1";
     Project.accessKeyId := Some "AKIA";
     Project.secretAccessKey := Some "";
     Project.region := Some "eu-west-1" |}.

(** A project with a region of its own. *)
Definition regional : Project.t :=
  {| Project.id := "project_1";
     Project.accessKeyId := Some "AKIA";
     Project.secretAccessKey := Some "secret";
     Project.region := Some "eu-west-1" |}.

Definition verified : ProjectIdentity.t :=
  {| ProjectIdentity.projectId := "project_1";
     ProjectIdentity.domain := "mly.fyi";
     ProjectIdentity.status := "success";
     ProjectIdentity.configurationSetName := Some "mly-tracking" |}.

(** A verified identity whose configuration set name is the empty string. *)
Definition blank : ProjectIdentity.t :=
  {| ProjectIdentity.projectId := "project_1";
     ProjectIdentity.domain := "blank.dev";
     ProjectIdentity.status := "success";
     ProjectIdentity.configurationSetName := Some "" |}.

(** An identity of another project for the domain [other.dev]. *)
Definition foreign : ProjectIdentity.t :=
  {| ProjectIdentity.projectId := "project_2";
     ProjectIdentity.domain := "other.dev";
     ProjectIdentity.status := "success";
     ProjectIdentity.configurationSetName := Some "other-tracking" |}.

Definition world (ps : list Project.t) : World :=
  {| users := [Sample.ada];
     projects := ps;
     projectIdentities := [verified; Sample.pending; blank; foreign];
     emailLogs := [];
     emailLogEvents := [];
     tick := 0 |}.

(** The sample collaborators, with a datastore that fails at one moment
    and a chosen build mode. *)
Definition faulty (moment : nat) (dev : bool) : Env :=
  {| authenticateApiKey := authenticateApiKey Sample.env;
     sendEmail := sendEmail Sample.env;
     newIdAt := newIdAt Sample.env;
     nowAt := nowAt Sample.env;
     dbFaultAt := fun n => if Nat.eqb n moment then Some "SQLITE_BUSY" else None;
     emailRule := emailRule Sample.env;
     decodeToken := decodeToken Sample.env;
     DEFAULT_SES_REGION := DEFAULT_SES_REGION Sample.env;
     TOKEN_COOKIE_NAME := TOKEN_COOKIE_NAME Sample.env;
     DEV := dev |}.

(** A mail with headers of the client's, one of them the tracking header. *)
Definition tagged : SendEmailBody :=
  {| from := "hello@mly.fyi";
     to := One "a@b.com";
     replyTo := Some (One "reply@mly.fyi");
     subject := "Hello";
     text := Some "Hello World";
     html := None;
     headers := [("X-Campaign", "spring");
                 ("X-SES-CONFIGURATION-SET", "spoofed")] |}.

(** A browser with a second cookie and locals left by an earlier stage. *)
Definition browser (token : string) : APIContext :=
  {| requestHeaders := [];
     cookies := [("theme", "dark"); ("__mly_jt__", token)];
     locals := {| currentUser := None; currentUserId := Some "stale" |} |}.

End Cases.

(** * Properties *)

Unset Implicit Arguments.

(** ** The sender's domain *)

Lemma split_nonempty : forall sep s, Js.split sep s <> [].
Proof.
  intros sep s. destruct s as [|c s]; simpl.
  - discriminate.
  - destruct (Ascii.eqb c sep); [discriminate|].
    destruct (Js.split sep s); discriminate.
Qed.

(** The first piece of a split is what precedes the first separator. *)
Lemma split_head_beforeFirstAt :
  forall s, exists rest, Js.split "@" s = beforeFirstAt s :: rest.
Proof.
  induction s as [|c s [rest IH]]; simpl.
  - exists []. reflexivity.
  - destruct (Ascii.eqb c "@").
    + eexists. reflexivity.
    + rewrite IH. eexists. reflexivity.
Qed.

Lemma split_without_at :
  forall s, containsAt s = false -> Js.split "@" s = [s].
Proof.
  induction s as [|c s IH]; simpl; intros H.
  - reflexivity.
  - apply orb_false_iff in H. destruct H as [Hc Hs].
    rewrite Hc, (IH Hs). reflexivity.
Qed.

Lemma beforeFirstAt_without_at :
  forall s, containsAt s = false -> beforeFirstAt s = s.
Proof.
  induction s as [|c s IH]; simpl; intros H.
  - reflexivity.
  - apply orb_false_iff in H. destruct H as [Hc Hs].
    rewrite Hc, (IH Hs). reflexivity.
Qed.

Lemma split_at_first_at :
  forall a b, containsAt a = false ->
    Js.split "@" (a ++ String "@" b) = a :: Js.split "@" b.
Proof.
  induction a as [|c a IH]; simpl; intros b H.
  - reflexivity.
  - apply orb_false_iff in H. destruct H as [Hc Ha].
    rewrite Hc, (IH b Ha). reflexivity.
Qed.

Lemma afterFirstAt_app :
  forall a b, containsAt a = false -> afterFirstAt (a ++ String "@" b) = b.
Proof.
  induction a as [|c a IH]; simpl; intros b H.
  - reflexivity.
  - apply orb_false_iff in H. destruct H as [Hc Ha].
    rewrite Hc. apply IH, Ha.
Qed.

Lemma fromDomain_without_at :
  forall from, containsAt from = false -> fromDomain from = None.
Proof.
  intros from H. unfold fromDomain. rewrite (split_without_at _ H). reflexivity.
Qed.

(** C9, as amended.  For a [from] written [a @ b] with no ['@'] in [a], the
    domain used in the identity lookup ([fromDomain], see
    [identity_lookup_uses_fromDomain]) is the part of [b] before its own
    first ['@']: all of [b], the substring after the ['@'] through the end
    of the string, when [from] has exactly one ['@'], and only the segment
    between the first and the second ['@'] otherwise. *)
Theorem fromDomain_is_second_piece :
  forall a b,
    containsAt a = false ->
    fromDomain (a ++ String "@" b) = Some (beforeFirstAt b)
    /\ afterFirstAt (a ++ String "@" b) = b
    /\ (containsAt b = false -> fromDomain (a ++ String "@" b) = Some b).
Proof.
  intros a b Ha.
  assert (E : fromDomain (a ++ String "@" b) = Some (beforeFirstAt b)).
  { unfold fromDomain. rewrite (split_at_first_at a b Ha).
    destruct (split_head_beforeFirstAt b) as [rest ->]. reflexivity. }
  split; [exact E|]. split.
  - apply afterFirstAt_app, Ha.
  - intros Hb. rewrite E, (beforeFirstAt_without_at _ Hb). reflexivity.
Qed.

Lemma fromDomain_is_second_piece_witness :
  containsAt "hello" = false
  /\ fromDomain ("hello" ++ String "@" "mly.fyi@example.org") = Some "mly.fyi"
  /\ afterFirstAt ("hello" ++ String "@" "mly.fyi@example.org") = "mly.fyi@example.org".
Proof.
  split; [reflexivity|].
  destruct (fromDomain_is_second_piece "hello" "mly.fyi@example.org" eq_refl)
    as [H1 [H2 _]].
  split; [exact H1 | exact H2].
Defined.

(** C9, as stated, fails on an address with two ['@']: the lookup uses what
    lies between them, not everything after the first. *)
Lemma fromDomain_two_ats_counterexample :
  containsAt "a@b@c" = true
  /\ fromDomain "a@b@c" = Some "b"
  /\ afterFirstAt "a@b@c" = "b@c"
  /\ fromDomain "a@b@c" <> Some (afterFirstAt "a@b@c").
Proof.
  repeat split; try reflexivity. discriminate.
Qed.

(** ** Running the handler *)

(** The scrutinee on which a term is stuck: the innermost one of its
    matches. *)
Ltac stuck_on t :=
  lazymatch t with
  | context [match ?x with _ => _ end] => stuck_on x
  | _ => t
  end.

Ltac unfold_run H :=
  cbv beta iota zeta delta
    [handle dispatch logFailure logSending POST validate
     bind ret throw tryCatch authenticate findFirstProject findFirstIdentity
     findFirstUser dbCall insertEmailLog insertEmailLogEvent callSendEmail
     newId newDate callDecodeToken consoleLog logError] in H.

(** One case distinction of a run held in [H]. *)
Ltac case_run H :=
  match type of H with
  | context [match ?x with _ => _ end] =>
      let y := stuck_on x in
      destruct y eqn:?; cbn beta iota in H
  end.

Ltac finish_run H := inversion H; subst; clear H.

Lemma healthy_at : forall env n, healthy env -> dbFaultAt env n = None.
Proof. intros env n H. apply H. Qed.

Lemma whenTruthy_Some :
  forall v s, Js.whenTruthy v = Some s -> v = Some s /\ s <> "".
Proof.
  intros v s. unfold Js.whenTruthy, Js.truthy.
  destruct v as [t|]; [|discriminate].
  destruct (String.eqb_spec t ""); simpl; [discriminate|].
  intros H. inversion H. subst. split; [reflexivity|assumption].
Qed.

Lemma status_checked :
  forall s, negb (String.eqb s "success") = false -> s = "success".
Proof.
  intros s H. apply negb_false_iff in H. apply String.eqb_eq, H.
Qed.

(** Runs a handler held in [H] to the end, one goal per path. *)
Ltac run_all H :=
  unfold_run H;
  repeat match type of H with
    | context [dbFaultAt ?env ?n] =>
        match goal with
        | Hh : healthy env |- _ => rewrite (healthy_at env n Hh) in H; cbn beta iota in H
        end
    | context [match ?x with _ => _ end] =>
        match goal with
        | E : x = _ |- _ => rewrite E in H; cbn beta iota in H
        end
    | _ => case_run H
    end;
  finish_run H.

(** ** Identity checks before the dispatch *)

(** C4.  For a request whose sender domain resolves to an identity of the
    caller's project, the provider is called only if the identity's status
    is ['success'] and its configuration set name is not null; if the status
    is not ['success'] or the configuration set name is unset, the handler
    throws a bad request, writes no log row and no event row, and calls the
    provider not at all. *)
Theorem dispatch_requires_verified_configured_identity :
  forall env params w key project identity r w' evs,
    healthy env ->
    authenticateApiKey env (context params) w = inr key ->
    selectProject w (ProjectApiKey.projectId key) = Some project ->
    selectIdentity w (Project.id project) (fromDomain (from (body params)))
      = Some identity ->
    handle env params w = (r, w', evs) ->
    ((exists config email result, In (ESendEmail config email result) evs) ->
       ProjectIdentity.status identity = "success"
       /\ ProjectIdentity.configurationSetName identity <> None)
    /\ (ProjectIdentity.status identity <> "success"
        \/ ProjectIdentity.configurationSetName identity = None ->
        (exists message, r = Throw (HttpError "bad_request" message))
        /\ emailLogs w' = emailLogs w
        /\ emailLogEvents w' = emailLogEvents w
        /\ (forall config email result, ~ In (ESendEmail config email result) evs)).
Proof.
  intros env params w key project identity r w' evs Hh Hauth Hproj Hid Hrun.
  change (selectProject w) with (selectProject (advance w)) in Hproj.
  change (selectIdentity w) with (selectIdentity (advance (advance w))) in Hid.
  run_all Hrun.
  all: split;
    [ intros (config & email & result & Hin); simpl in Hin;
      try (exfalso; intuition discriminate)
    | intros [Hs | Hc] ].
  all: try match goal with
    | E : negb (String.eqb _ "success") = false |- _ =>
        apply status_checked in E
    end.
  all: try match goal with
    | E : Js.whenTruthy (ProjectIdentity.configurationSetName _) = Some _ |- _ =>
        apply whenTruthy_Some in E; destruct E as [E _]
    end.
  all: try congruence.
  all: try (split; congruence).
  all: repeat split; try reflexivity; try (eexists; reflexivity).
  all: intros config email result Hin; simpl in Hin; intuition discriminate.
Qed.

Lemma sample_healthy : healthy Sample.env.
Proof. intros n. reflexivity. Qed.

Lemma dispatch_requires_verified_configured_identity_witness :
  let params := Sample.request (Sample.mail "hello@pending.dev" (One "a@b.com") "Hello") in
  let run := handle Sample.env params Sample.world in
  (exists message, fst (fst run) = Throw (HttpError "bad_request" message))
  /\ emailLogs (snd (fst run)) = emailLogs Sample.world
  /\ emailLogEvents (snd (fst run)) = emailLogEvents Sample.world
  /\ (forall config email result, ~ In (ESendEmail config email result) (snd run)).
Proof.
  intros params run.
  refine (proj2 (dispatch_requires_verified_configured_identity
            Sample.env params Sample.world Sample.key
            Sample.project
            Sample.pending
            (fst (fst run)) (snd (fst run)) (snd run)
            sample_healthy eq_refl eq_refl eq_refl eq_refl) _).
  left. discriminate.
Defined.

(** ** The two outcomes of the dispatch *)

(** Splits the membership of a dispatch in the effects of a finished run:
    the impossible positions go, the real one leaves the equation between
    the dispatch of the run and the one looked for. *)
Ltac find_dispatch Hin :=
  simpl in Hin;
  repeat match type of Hin with
    | _ \/ _ => destruct Hin as [Hin | Hin]
    | False => contradiction
    | _ = _ => try discriminate Hin
    end.

(** C1.  When the provider call of a run succeeds - it is made only for an
    authenticated request with a single recipient whose sender domain
    resolves to an identity with status ['success'] and a configuration set
    name, by the checks that precede it in [handle] - the handler
    inserts exactly one log row, with status ['sending'] and the provider's
    message id, exactly one event, of type ['sending'] and referring to that
    row, and answers with the id of that row.  The datastore is assumed to
    answer. *)
Theorem successful_dispatch_is_logged_as_sending :
  forall env params w r w' evs config email messageId,
    healthy env ->
    handle env params w = (r, w', evs) ->
    In (ESendEmail config email
          {| data := Some {| data_messageId := messageId |}; error := None |})
       evs ->
    exists log event,
      emailLogs w' = emailLogs w ++ [log]
      /\ EmailLog.status log = "sending"
      /\ EmailLog.messageId log = Some messageId
      /\ emailLogEvents w' = emailLogEvents w ++ [event]
      /\ EmailLogEvent.type event = "sending"
      /\ EmailLogEvent.emailLogId event = EmailLog.id log
      /\ r = Normal (json {| response_id := EmailLog.id log |}).
Proof.
  intros env params w r w' evs config email messageId Hh Hrun Hin.
  run_all Hrun; find_dispatch Hin.
  all: injection Hin as _ _ Hres; cbn [tick advance] in *.
  all: rewrite Hres in *; cbn [data error] in *.
  all: try discriminate.
  all: match goal with
       | E : Some _ = Some _ |- _ => injection E as <-
       end.
  all: eexists; eexists; simpl; repeat split.
Qed.

Lemma successful_dispatch_is_logged_as_sending_witness :
  let params := Sample.request (Sample.mail "hello@mly.fyi" (One "a@b.com") "Hello") in
  let run := handle Sample.env params Sample.world in
  exists log event,
    emailLogs (snd (fst run)) = emailLogs Sample.world ++ [log]
    /\ EmailLog.status log = "sending"
    /\ EmailLog.messageId log = Some "ses-3"
    /\ emailLogEvents (snd (fst run)) = emailLogEvents Sample.world ++ [event]
    /\ EmailLogEvent.type event = "sending"
    /\ EmailLogEvent.emailLogId event = EmailLog.id log
    /\ fst (fst run) = Normal (json {| response_id := EmailLog.id log |}).
Proof.
  intros params run.
  refine (successful_dispatch_is_logged_as_sending
            Sample.env params Sample.world
            (fst (fst run)) (snd (fst run)) (snd run)
            {| provider := "ses";
               ses := {| ses_accessKeyId := "AKIA";
                         ses_secretAccessKey := "secret";
                         ses_region := "us-east-1" |} |}
            {| from := "hello@mly.fyi";
               to := One "a@b.com";
               replyTo := None;
               subject := "Hello";
               text := Some "Hello World";
               html := Some "<p>Hello World</p>";
               headers := [("X-SES-CONFIGURATION-SET", "mly-tracking")] |}
            "ses-3" sample_healthy eq_refl _).
  vm_compute. right. right. right. left. reflexivity.
Defined.

(** C5.  When the provider call of a run returns an error, the handler
    inserts exactly one log row, with status ['error'], and exactly one
    event, of type ['error'], and throws a bad request whose message is the
    provider's.  The datastore is assumed to answer. *)
Theorem failed_dispatch_is_logged_as_error :
  forall env params w r w' evs config email result e,
    healthy env ->
    handle env params w = (r, w', evs) ->
    In (ESendEmail config email result) evs ->
    error result = Some e ->
    exists log event,
      emailLogs w' = emailLogs w ++ [log]
      /\ EmailLog.status log = "error"
      /\ emailLogEvents w' = emailLogEvents w ++ [event]
      /\ EmailLogEvent.type event = "error"
      /\ r = Throw (HttpError "bad_request" (error_message e)).
Proof.
  intros env params w r w' evs config email result e Hh Hrun Hin He.
  run_all Hrun; find_dispatch Hin.
  all: injection Hin as _ _ Hres; cbn [tick advance] in *.
  all: rewrite Hres in *.
  all: try congruence.
  all: match goal with
       | |- context [error_message ?x] => replace x with e by congruence
       end.
  all: eexists; eexists; simpl; repeat split.
Qed.

Lemma failed_dispatch_is_logged_as_error_witness :
  let params := Sample.request (Sample.mail "hello@mly.fyi" (One "a@b.com") "fail") in
  let run := handle Sample.env params Sample.world in
  exists log event,
    emailLogs (snd (fst run)) = emailLogs Sample.world ++ [log]
    /\ EmailLog.status log = "error"
    /\ emailLogEvents (snd (fst run)) = emailLogEvents Sample.world ++ [event]
    /\ EmailLogEvent.type event = "error"
    /\ fst (fst run)
       = Throw (HttpError "bad_request" "Email address is not verified.").
Proof.
  intros params run.
  refine (failed_dispatch_is_logged_as_error
            Sample.env params Sample.world
            (fst (fst run)) (snd (fst run)) (snd run)
            {| provider := "ses";
               ses := {| ses_accessKeyId := "AKIA";
                         ses_secretAccessKey := "secret";
                         ses_region := "us-east-1" |} |}
            {| from := "hello@mly.fyi";
               to := One "a@b.com";
               replyTo := None;
               subject := "fail";
               text := Some "Hello World";
               html := Some "<p>Hello World</p>";
               headers := [("X-SES-CONFIGURATION-SET", "mly-tracking")] |}
            {| data := None;
               error := Some {| error_message := "Email address is not verified." |} |}
            {| error_message := "Email address is not verified." |}
            sample_healthy eq_refl _ eq_refl).
  vm_compute. right. right. right. left. reflexivity.
Defined.

(** ** The failure path and its event *)

(** On the failure path the row is inserted under a third id, generated
    after the one the event refers to: with ids that differ from one
    generation to the next, the event does not refer to the row. *)
Lemma failure_event_misses_its_log :
  forall env params w r w' evs config email result e,
    healthy env ->
    freshIds env ->
    handle env params w = (r, w', evs) ->
    In (ESendEmail config email result) evs ->
    error result = Some e ->
    exists log event,
      emailLogs w' = emailLogs w ++ [log]
      /\ emailLogEvents w' = emailLogEvents w ++ [event]
      /\ EmailLogEvent.emailLogId event <> EmailLog.id log.
Proof.
  intros env params w r w' evs config email result e Hh Hfresh Hrun Hin He.
  run_all Hrun; find_dispatch Hin.
  all: injection Hin as _ _ Hres; cbn [tick advance] in *.
  all: rewrite Hres in *.
  all: try congruence.
  all: eexists; eexists; simpl; repeat split.
  all: apply Hfresh; lia.
Qed.

(** C2 at a failing dispatch: the one log row that the run inserts has id
    [emailLog_6], its one event refers to [emailLog_4], and no event of the
    datastore refers to the row. *)
Theorem error_log_row_has_no_event :
  let params := Sample.request (Sample.mail "hello@mly.fyi" (One "a@b.com") "fail") in
  let run := handle Sample.env params Sample.world in
  exists log event,
    emailLogs (snd (fst run)) = [log]
    /\ emailLogEvents (snd (fst run)) = [event]
    /\ EmailLog.status log = "error"
    /\ EmailLog.id log = "emailLog_6"
    /\ EmailLogEvent.emailLogId event = "emailLog_4"
    /\ forall other,
         In other (emailLogEvents (snd (fst run))) ->
         EmailLogEvent.emailLogId other <> EmailLog.id log.
Proof.
  intros params run. vm_compute.
  eexists. eexists. repeat split.
  intros other [<- | []]. discriminate.
Qed.

(** ** A sender domain without identity *)

(** C3, as stated, fails: the handler throws ['bad_request'], not
    ['not_found'], for an authenticated request whose sender domain has no
    identity in the caller's project. *)
Lemma unknown_domain_counterexample :
  let params := Sample.request (Sample.mail "hello@nowhere.dev" (One "a@b.com") "Hello") in
  let run := handle Sample.env params Sample.world in
  authenticateApiKey Sample.env (context params) Sample.world = inr Sample.key
  /\ selectIdentity Sample.world "project_1" (fromDomain (from (body params))) = None
  /\ fst (fst run)
     = Throw (HttpError "bad_request"
                "You are not allowed to send email from nowhere.dev domain.")
  /\ forall message, fst (fst run) <> Throw (HttpError "not_found" message).
Proof.
  intros params run. vm_compute. repeat split. intros message. discriminate.
Qed.

(** C3, as amended.  For an authenticated request whose sender domain has
    no identity in the caller's project, the handler throws a bad request -
    for a single recipient, the one that names the domain - and no log row
    and no event row are written. *)
Theorem unknown_domain_is_rejected_without_rows :
  forall env params w key project r w' evs,
    healthy env ->
    authenticateApiKey env (context params) w = inr key ->
    selectProject w (ProjectApiKey.projectId key) = Some project ->
    selectIdentity w (Project.id project) (fromDomain (from (body params))) = None ->
    handle env params w = (r, w', evs) ->
    (exists message, r = Throw (HttpError "bad_request" message))
    /\ (isArray (to (body params)) || isArrayOpt (replyTo (body params)) = false ->
        r = Throw (HttpError "bad_request"
                     ("You are not allowed to send email from "
                      ++ Js.show (fromDomain (from (body params)))
                      ++ " domain.")%string))
    /\ emailLogs w' = emailLogs w
    /\ emailLogEvents w' = emailLogEvents w.
Proof.
  intros env params w key project r w' evs Hh Hauth Hproj Hid Hrun.
  change (selectProject w) with (selectProject (advance w)) in Hproj.
  change (selectIdentity w) with (selectIdentity (advance (advance w))) in Hid.
  run_all Hrun.
  all: repeat split; try reflexivity; try (eexists; reflexivity).
  all: intros; congruence.
Qed.

Lemma unknown_domain_is_rejected_without_rows_witness :
  let params := Sample.request (Sample.mail "hello@nowhere.dev" (One "a@b.com") "Hello") in
  let run := handle Sample.env params Sample.world in
  (exists message, fst (fst run) = Throw (HttpError "bad_request" message))
  /\ (isArray (to (body params)) || isArrayOpt (replyTo (body params)) = false ->
      fst (fst run)
      = Throw (HttpError "bad_request"
                 ("You are not allowed to send email from "
                  ++ Js.show (fromDomain (from (body params)))
                  ++ " domain.")%string))
  /\ emailLogs (snd (fst run)) = emailLogs Sample.world
  /\ emailLogEvents (snd (fst run)) = emailLogEvents Sample.world.
Proof.
  intros params run.
  exact (unknown_domain_is_rejected_without_rows
           Sample.env params Sample.world Sample.key
           Sample.project
           (fst (fst run)) (snd (fst run)) (snd run)
           sample_healthy eq_refl eq_refl eq_refl eq_refl).
Defined.

(** ** Validation *)

(** The schema gives every key a string or nothing: a key that holds an
    array is reported. *)
Lemma string_rejects_array :
  forall rule sch path v,
    rawIsArray v = true ->
    Joi.errors (Joi.string_ rule sch path v) = [(path, "string.base")].
Proof.
  intros rule sch path v H. destruct v; try discriminate. reflexivity.
Qed.

(** [validate] touches neither the datastore nor any collaborator. *)
Lemma validate_is_pure :
  forall env params w, exists c, validate env params w = (c, w, []).
Proof.
  intros env params w. unfold validate.
  destruct (Joi.errors (schema env (body params))).
  - destruct (Joi.value (schema env (body params))).
    + destruct (negb (Js.truthy (text s)) && negb (Js.truthy (html s)));
        eexists; reflexivity.
    + eexists; reflexivity.
  - eexists; reflexivity.
Qed.

Lemma POST_after_rejection :
  forall env params w e,
    validate env params w = (Throw e, w, []) ->
    POST env params w = (Throw e, w, []).
Proof.
  intros env params w e H. unfold POST, bind. rewrite H. reflexivity.
Qed.

Lemma schema_reports_array :
  forall env raw,
    rawIsArray (prop "to" raw) || rawIsArray (prop "replyTo" raw) = true ->
    Joi.errors (schema env raw) <> [].
Proof.
  intros env raw H E. unfold schema in E. cbn [Joi.errors] in E.
  apply app_eq_nil in E. destruct E as [_ E].
  apply app_eq_nil in E. destruct E as [Eto E].
  apply app_eq_nil in E. destruct E as [Ereply _].
  apply orb_true_iff in H. destruct H as [H | H].
  - rewrite (string_rejects_array _ _ _ _ H) in Eto. discriminate.
  - rewrite (string_rejects_array _ _ _ _ H) in Ereply. discriminate.
Qed.

(** C6, as stated, fails on the route: an array for [to] is refused by the
    schema, with Joi's error for the key and not with the message about
    multiple recipients. *)
Lemma array_recipient_counterexample :
  let params :=
    Sample.request
      (Sample.rawMail (JArray [JString "a@b.com"; JString "c@d.com"])
                      (JString "Hello World")) in
  let run := POST Sample.env params Sample.world in
  rawIsArray (prop "to" (body params)) = true
  /\ fst (fst run) = Throw (ValidationError [("to", "string.base")])
  /\ fst (fst run)
     <> Throw (HttpError "bad_request" "Multiple recipients are not supported.").
Proof.
  intros params run. vm_compute. repeat split. discriminate.
Qed.

(** C6, as amended.  A request of the route in which [to] or [replyTo] is
    an array is rejected by the schema with a validation error, before
    authentication and before any datastore call, hence before any identity
    lookup.  The handler itself, given a body with an array for [to] or
    [replyTo], throws the bad request 'Multiple recipients are not
    supported.' once the key is authenticated and the project found, and
    before any identity lookup: its only effects are the authentication and
    the project lookup. *)
Theorem array_recipients_are_rejected_before_identity_lookup :
  forall env,
    (forall params w,
        rawIsArray (prop "to" (body params))
        || rawIsArray (prop "replyTo" (body params)) = true ->
        exists details,
          details <> []
          /\ POST env params w = (Throw (ValidationError details), w, []))
    /\ (forall params w key project,
           healthy env ->
           authenticateApiKey env (context params) w = inr key ->
           selectProject w (ProjectApiKey.projectId key) = Some project ->
           isArray (to (body params)) || isArrayOpt (replyTo (body params)) = true ->
           handle env params w
           = (Throw (HttpError "bad_request" "Multiple recipients are not supported."),
              advance (advance w),
              [EAuthenticate (context params);
               EFindProject (ProjectApiKey.projectId key)])).
Proof.
  intros env. split.
  - intros params w H.
    pose proof (schema_reports_array env (body params) H) as Hne.
    exists (Joi.errors (schema env (body params))). split; [exact Hne|].
    apply POST_after_rejection. unfold validate.
    destruct (Joi.errors (schema env (body params))); [congruence|].
    reflexivity.
  - intros params w key project Hh Hauth Hproj Harr.
    change (selectProject w) with (selectProject (advance w)) in Hproj.
    destruct (handle env params w) as [[r w'] evs] eqn:Hrun.
    run_all Hrun. reflexivity.
Qed.

Lemma array_recipients_are_rejected_before_identity_lookup_witness :
  (let params :=
     Sample.request
       (Sample.rawMail (JString "a@b.com") (JString "Hello World")
        ++ [("replyTo", JArray [JString "c@d.com"])]) in
   exists details,
     details <> []
     /\ POST Sample.env params Sample.world
        = (Throw (ValidationError details), Sample.world, []))
  /\ (let params :=
        Sample.request (Sample.mail "hello@mly.fyi" (Many ["a@b.com"; "c@d.com"]) "Hello") in
      handle Sample.env params Sample.world
      = (Throw (HttpError "bad_request" "Multiple recipients are not supported."),
         advance (advance Sample.world),
         [EAuthenticate (context params); EFindProject "project_1"])).
Proof.
  split; intros params.
  - exact (proj1 (array_recipients_are_rejected_before_identity_lookup Sample.env)
             params Sample.world eq_refl).
  - exact (proj2 (array_recipients_are_rejected_before_identity_lookup Sample.env)
             params Sample.world Sample.key
             Sample.project
             sample_healthy eq_refl eq_refl eq_refl).
Defined.

(** ** The body-content rule *)

(** What [validate] tests for [text] and [html] is whether the raw field
    holds content: the schema turns a string of white space into [""], and
    [""] is falsy. *)
Lemma optionalText_truthy :
  forall rule path v,
    Js.truthy (Joi.value (Joi.string_ rule Joi.optionalText path v)) = hasContent v.
Proof.
  intros rule path v. destruct v; try reflexivity.
  unfold Joi.string_, Joi.optionalText, hasContent, Js.truthy.
  cbn [Joi.lowercase Joi.allowEmpty Joi.email Joi.required andb].
  destruct (String.eqb (Js.trim s) "") eqn:E; cbn [Joi.value Joi.ok negb].
  - apply String.eqb_eq in E. rewrite E. reflexivity.
  - rewrite E. reflexivity.
Qed.

Lemma required_string_value :
  forall rule sch path v,
    Joi.required sch = true ->
    Joi.errors (Joi.string_ rule sch path v) = [] ->
    exists s, Joi.value (Joi.string_ rule sch path v) = Some s.
Proof.
  intros rule sch path v Hreq. destruct v; cbn; rewrite ?Hreq; cbn;
    try discriminate.
  destruct (String.eqb _ ""); [destruct (Joi.allowEmpty sch)|];
    cbn; try discriminate.
  - intros _. eexists. reflexivity.
  - destruct (Joi.email sch && negb (rule _)); cbn; try discriminate.
    intros _. eexists. reflexivity.
Qed.

Lemma headerEntry_keeps_value :
  forall rule kv acc,
    Joi.value acc <> None -> Joi.value (Joi.headerEntry rule acc kv) <> None.
Proof.
  intros rule [k v] acc H. unfold Joi.headerEntry.
  destruct (String.eqb (Js.trim k) ""); [exact H|].
  cbn. destruct (Joi.value acc); [|congruence].
  destruct (Joi.value (Joi.string_ rule Joi.requiredString _ v)); discriminate.
Qed.

Lemma headers_value :
  forall rule v,
    Joi.errors (Joi.headers_ rule v) = [] ->
    exists h, Joi.value (Joi.headers_ rule v) = Some h.
Proof.
  intros rule v. destruct v; cbn; try discriminate.
  - intros _. eexists. reflexivity.
  - intros _.
    assert (G : forall acc : Joi.Outcome (list (string * string)),
               Joi.value acc <> None ->
               Joi.value (fold_left (Joi.headerEntry rule) o acc) <> None).
    { induction o as [|kv o IH]; intros acc H; cbn.
      - exact H.
      - apply IH, headerEntry_keeps_value, H. }
    specialize (G (Joi.ok (Some [])) ltac:(discriminate)).
    destruct (Joi.value (fold_left (Joi.headerEntry rule) o (Joi.ok (Some []))));
      [eexists; reflexivity | congruence].
Qed.

(** A body that passes the schema has a value, whose [text] and [html] are
    truthy exactly when the raw fields hold content. *)
Lemma schema_value :
  forall env raw,
    Joi.errors (schema env raw) = [] ->
    exists value,
      Joi.value (schema env raw) = Some value
      /\ Js.truthy (text value) = hasContent (prop "text" raw)
      /\ Js.truthy (html value) = hasContent (prop "html" raw).
Proof.
  intros env raw E. unfold schema in *. cbn [Joi.errors Joi.value] in *.
  apply app_eq_nil in E. destruct E as [Efrom E].
  apply app_eq_nil in E. destruct E as [Eto E].
  apply app_eq_nil in E. destruct E as [_ E].
  apply app_eq_nil in E. destruct E as [Esubject E].
  apply app_eq_nil in E. destruct E as [_ E].
  apply app_eq_nil in E. destruct E as [_ Eheaders].
  destruct (required_string_value _ Joi.requiredString _ _ eq_refl Efrom) as [f ->].
  destruct (required_string_value _ Joi.requiredEmail _ _ eq_refl Eto) as [t ->].
  destruct (required_string_value _ Joi.requiredString _ _ eq_refl Esubject) as [s ->].
  destruct (headers_value _ _ Eheaders) as [h ->].
  eexists. split; [reflexivity|].
  cbn [text html]. split; apply optionalText_truthy.
Qed.

(** C7, as stated, fails: a body whose [text] is the empty string and that
    has no [html] passes the schema and is rejected by the body-content
    rule: a supplied empty string does not count as present. *)
Lemma empty_text_counterexample :
  let params := Sample.request (Sample.rawMail (JString "a@b.com") (JString "")) in
  prop "text" (body params) = JString ""
  /\ Joi.errors (schema Sample.env (body params)) = []
  /\ validate Sample.env params Sample.world
     = (Throw (HttpError "bad_request" "Either text or html is required."),
        Sample.world, []).
Proof.
  intros params. vm_compute. repeat split.
Qed.

(** C7, as amended.  A body that passes the schema is accepted by
    [validate] if and only if at least one of [text] and [html] holds
    content, that is, is a string that is not empty once trimmed; a supplied
    empty string counts as absent.  When neither holds content the request
    is rejected - by the schema or with the bad request 'Either text or html
    is required.' - before the handler runs: no log row and no event row is
    written, and nothing else is done. *)
Theorem body_content_rule :
  forall env params w,
    let content :=
      hasContent (prop "text" (body params))
      || hasContent (prop "html" (body params)) in
    (Joi.errors (schema env (body params)) = [] ->
     ((exists validated, validate env params w = (Normal validated, w, []))
      <-> content = true)
     /\ (content = false ->
         validate env params w
         = (Throw (HttpError "bad_request" "Either text or html is required."),
            w, [])))
    /\ (content = false -> exists e, POST env params w = (Throw e, w, [])).
Proof.
  intros env params w content.
  assert (Hpass :
    Joi.errors (schema env (body params)) = [] ->
    (content = true -> exists validated, validate env params w = (Normal validated, w, []))
    /\ (content = false ->
        validate env params w
        = (Throw (HttpError "bad_request" "Either text or html is required."),
           w, []))).
  { intros E. destruct (schema_value env (body params) E) as (value & Hv & Ht & Hh).
    unfold validate. rewrite E, Hv, Ht, Hh.
    rewrite <- negb_orb. fold content.
    split; intros ->; cbn; [eexists|]; reflexivity. }
  split.
  - intros E. destruct (Hpass E) as [Hyes Hno]. split; [split|].
    + intros [validated Hok]. destruct content; [reflexivity|].
      rewrite (Hno eq_refl) in Hok. discriminate.
    + exact Hyes.
    + exact Hno.
  - intros Hc.
    destruct (Joi.errors (schema env (body params))) eqn:E.
    + exists (HttpError "bad_request" "Either text or html is required.").
      apply POST_after_rejection. apply Hpass; [reflexivity | exact Hc].
    + exists (ValidationError (p :: l)).
      apply POST_after_rejection. unfold validate. rewrite E. reflexivity.
Qed.

Lemma body_content_rule_witness :
  (let params := Sample.request (Sample.rawMail (JString "a@b.com") (JString "   ")) in
   validate Sample.env params Sample.world
   = (Throw (HttpError "bad_request" "Either text or html is required."),
      Sample.world, []))
  /\ (let params := Sample.request (Sample.rawMail (JString "a@b.com") (JString " hi ")) in
      exists validated,
        validate Sample.env params Sample.world = (Normal validated, Sample.world, []))
  /\ (let params := Sample.request (Sample.rawMail (JString "a@b.com") JUndefined) in
      exists e, POST Sample.env params Sample.world = (Throw e, Sample.world, [])).
Proof.
  split; [|split]; intros params.
  - exact (proj2 (proj1 (body_content_rule Sample.env params Sample.world) eq_refl)
             eq_refl).
  - exact (proj2 (proj1 (proj1 (body_content_rule Sample.env params Sample.world) eq_refl))
             eq_refl).
  - exact (proj2 (body_content_rule Sample.env params Sample.world) eq_refl).
Defined.

(** ** The session resolver *)

Section Resolver.

Variable env : Env.
Variable Response : Type.
Variable next : APIContext -> M Response.

(** Without a cookie, or with an empty one, the middleware is [next()]:
    nothing is decoded and the datastore is not called. *)
Lemma onRequest_without_token :
  forall context w,
    Js.whenTruthy (Js.get (TOKEN_COOKIE_NAME env) (cookies context)) = None ->
    onRequest env context next w = next context w.
Proof.
  intros context w H. unfold onRequest. rewrite H. reflexivity.
Qed.

(** A subject id that matches no user: the cookie is cleared and the
    request proceeds with empty locals. *)
Lemma onRequest_unknown_user :
  forall context w token payload,
    Js.whenTruthy (Js.get (TOKEN_COOKIE_NAME env) (cookies context)) = Some token ->
    decodeToken env (tick w) token = inr payload ->
    dbFaultAt env (S (tick w)) = None ->
    selectUser w (token_id payload) = None ->
    onRequest env context next w
    = after [EDecodeToken token; EFindUser (token_id payload)]
        (next (deleteCookie (TOKEN_COOKIE_NAME env) context) (advance (advance w))).
Proof.
  intros context w token payload Hc Hd Hf Hu.
  unfold onRequest, resolveUser, bind, tryCatch, callDecodeToken,
    findFirstUser, dbCall, after.
  rewrite Hc, Hd. cbn [tick advance]. rewrite Hf.
  change (selectUser (advance w)) with (selectUser w). rewrite Hu.
  cbn. destruct (next _ _) as [[c w1] evs]. reflexivity.
Qed.

(** A datastore error outside development: the cookie is cleared, the
    error is dropped and the request proceeds. *)
Lemma onRequest_datastore_error_in_production :
  forall context w token payload msg,
    Js.whenTruthy (Js.get (TOKEN_COOKIE_NAME env) (cookies context)) = Some token ->
    decodeToken env (tick w) token = inr payload ->
    dbFaultAt env (S (tick w)) = Some msg ->
    DEV env = false ->
    onRequest env context next w
    = after [EDecodeToken token; EFindUser (token_id payload)]
        (next (deleteCookie (TOKEN_COOKIE_NAME env) context) (advance (advance w))).
Proof.
  intros context w token payload msg Hc Hd Hf Hdev.
  unfold onRequest, resolveUser, bind, tryCatch, callDecodeToken,
    findFirstUser, dbCall, after.
  rewrite Hc, Hd. cbn [tick advance]. rewrite Hf, Hdev.
  cbn. destruct (next _ _) as [[c w1] evs]. reflexivity.
Qed.

(** A datastore error in development: the error is logged and the request
    proceeds, the cookie kept. *)
Lemma onRequest_datastore_error_in_development :
  forall context w token payload msg,
    Js.whenTruthy (Js.get (TOKEN_COOKIE_NAME env) (cookies context)) = Some token ->
    decodeToken env (tick w) token = inr payload ->
    dbFaultAt env (S (tick w)) = Some msg ->
    DEV env = true ->
    onRequest env context next w
    = after [EDecodeToken token; EFindUser (token_id payload);
             ELogError (DatastoreError msg)]
        (next context (advance (advance w))).
Proof.
  intros context w token payload msg Hc Hd Hf Hdev.
  unfold onRequest, resolveUser, bind, tryCatch, callDecodeToken,
    findFirstUser, dbCall, logError, after.
  rewrite Hc, Hd. cbn [tick advance]. rewrite Hf, Hdev.
  cbn. destruct (next _ _) as [[c w1] evs]. reflexivity.
Qed.

(** A token that [decodeToken] refuses: the error leaves the middleware,
    [next] is not run and the cookie stays. *)
Lemma onRequest_decode_failure :
  forall context w token e,
    Js.whenTruthy (Js.get (TOKEN_COOKIE_NAME env) (cookies context)) = Some token ->
    decodeToken env (tick w) token = inl e ->
    onRequest env context next w = (Throw e, advance w, [EDecodeToken token]).
Proof.
  intros context w token e Hc Hd.
  unfold onRequest, bind, callDecodeToken. rewrite Hc, Hd. reflexivity.
Qed.

End Resolver.

(** C8 at a malformed token: the decoder's error is thrown out of the
    middleware, whatever the downstream is; the downstream is not run and
    the cookie is not cleared. *)
Theorem malformed_token_blocks_request :
  forall (Response : Type) (next : APIContext -> M Response),
    onRequest Sample.env (Sample.browser "garbage") next Sample.world
    = (Throw (InvalidToken "Invalid Compact JWS"),
       advance Sample.world,
       [EDecodeToken "garbage"]).
Proof.
  intros Response next.
  apply onRequest_decode_failure; reflexivity.
Qed.

Lemma find_some_id :
  forall id us u,
    find (fun u => String.eqb (User.id u) id) us = Some u -> User.id u = id.
Proof.
  intros id us u H. apply find_some in H. destruct H as [_ H].
  apply String.eqb_eq, H.
Qed.

Lemma selectUser_ignores_flags :
  forall enabled verified w id,
    selectUser (withUserFlags enabled verified w) id = selectUser w id.
Proof.
  intros enabled verified w id. unfold selectUser, withUserFlags.
  cbn [users]. induction (users w) as [|u us IH]; cbn.
  - reflexivity.
  - destruct (String.eqb (User.id u) id); [reflexivity | exact IH].
Qed.

(** C10.  For a request whose session token decodes to the id of a user
    row, the resolver sets [currentUser] to the [id], [email] and [name] of
    that row and [currentUserId] to its id, and runs the downstream in that
    context - whatever the row's [isEnabled] and [verifiedAt]: the row [u] is
    arbitrary, and the answer of the lookup is the same when these two
    columns are overwritten in every row.  The datastore is assumed to answer
    the lookup. *)
Theorem valid_token_resolves_user_whatever_flags :
  forall env (Response : Type) (next : APIContext -> M Response)
         context w token payload u,
    Js.whenTruthy (Js.get (TOKEN_COOKIE_NAME env) (cookies context)) = Some token ->
    decodeToken env (tick w) token = inr payload ->
    dbFaultAt env (S (tick w)) = None ->
    find (fun u => String.eqb (User.id u) (token_id payload)) (users w) = Some u ->
    let resolved :=
      {| CurrentUser.id := User.id u;
         CurrentUser.email := User.email u;
         CurrentUser.name := User.name u |} in
    onRequest env context next w
    = after [EDecodeToken token; EFindUser (token_id payload);
             EConsoleLog dashes None;
             EConsoleLog "Current User: " (Some resolved);
             EConsoleLog dashes None]
        (next (setCurrentUser resolved context) (advance (advance w)))
    /\ locals (setCurrentUser resolved context)
       = {| currentUser := Some resolved;
            currentUserId := Some (token_id payload) |}
    /\ forall enabled verified,
         selectUser (withUserFlags enabled verified w) (token_id payload)
         = Some resolved.
Proof.
  intros env Response next context w token payload u Hc Hd Hf Hu resolved.
  assert (Hsel : selectUser w (token_id payload) = Some resolved).
  { unfold selectUser. rewrite Hu. reflexivity. }
  split; [|split].
  - unfold onRequest, resolveUser, bind, tryCatch, callDecodeToken,
      findFirstUser, dbCall, consoleLog, ret, after.
    rewrite Hc, Hd. cbn [tick advance]. rewrite Hf.
    change (selectUser (advance w)) with (selectUser w). rewrite Hsel.
    cbn. destruct (next _ _) as [[c w1] evs]. reflexivity.
  - cbn. rewrite (find_some_id _ _ _ Hu). reflexivity.
  - intros enabled verified. rewrite selectUser_ignores_flags. exact Hsel.
Qed.

Lemma valid_token_resolves_user_whatever_flags_witness :
  let resolved :=
    {| CurrentUser.id := "user_1";
       CurrentUser.email := "ada@mly.fyi";
       CurrentUser.name := "Ada" |} in
  onRequest Sample.env (Sample.browser "jwt:user_1") Sample.next Sample.world
  = after [EDecodeToken "jwt:user_1"; EFindUser "user_1";
           EConsoleLog dashes None;
           EConsoleLog "Current User: " (Some resolved);
           EConsoleLog dashes None]
      (Sample.next (setCurrentUser resolved (Sample.browser "jwt:user_1"))
         (advance (advance Sample.world)))
  /\ map User.isEnabled (users Sample.world) = [false]
  /\ map User.verifiedAt (users Sample.world) = [None].
Proof.
  intros resolved. split; [|split; reflexivity].
  exact (proj1 (valid_token_resolves_user_whatever_flags
                  Sample.env APIContext Sample.next
                  (Sample.browser "jwt:user_1") Sample.world
                  "jwt:user_1" {| token_id := "user_1" |}
                  Sample.ada
                  eq_refl eq_refl eq_refl eq_refl)).
Defined.

(** ** The domain of the identity lookup *)

(** The identity is looked up under [fromDomain] of the body's [from], in
    every run, also one in which the datastore fails. *)
Lemma identity_lookup_uses_fromDomain :
  forall env params w r w' evs projectId domain,
    handle env params w = (r, w', evs) ->
    In (EFindIdentity projectId domain) evs ->
    domain = fromDomain (from (body params)).
Proof.
  intros env params w r w' evs projectId domain Hrun Hin.
  run_all Hrun; find_dispatch Hin.
  all: injection Hin as _ <-; reflexivity.
Qed.

(** * Further properties *)

(** ** The shape of a run of the handler *)

(** X1.  The effects of a run of [handle], whatever the collaborators answer and
    whenever the datastore fails, are a beginning of: authentication,
    project lookup, identity lookup, provider call, log insert, event
    insert.  So the provider is called at most once and only after the
    three checks, and the event is inserted only after the log row. *)
Theorem handle_effects_follow_protocol :
  forall env params w,
    exists rest,
      map kindOf (snd (handle env params w)) ++ rest = handleProtocol.
Proof.
  intros env params w.
  destruct (handle env params w) as [[r w'] evs] eqn:Hrun.
  run_all Hrun; cbn [snd map kindOf app]; eexists; reflexivity.
Qed.

(** X2.  A run of [handle] leaves [users], [projects] and [projectIdentities]
    as they are, and changes the two log tables in one of three ways only:
    not at all; one log row appended and no event; one log row and one
    event appended.  Rows that exist are never changed or removed. *)
Theorem handle_only_appends :
  forall env params w,
    let w' := snd (fst (handle env params w)) in
    users w' = users w
    /\ projects w' = projects w
    /\ projectIdentities w' = projectIdentities w
    /\ ((emailLogs w' = emailLogs w /\ emailLogEvents w' = emailLogEvents w)
        \/ (exists log,
               emailLogs w' = emailLogs w ++ [log]
               /\ emailLogEvents w' = emailLogEvents w)
        \/ (exists log event,
               emailLogs w' = emailLogs w ++ [log]
               /\ emailLogEvents w' = emailLogEvents w ++ [event])).
Proof.
  intros env params w.
  destruct (handle env params w) as [[r w'] evs] eqn:Hrun.
  run_all Hrun; cbn; repeat split.
  all: first
    [ left; split; reflexivity
    | right; left; eexists; split; reflexivity
    | right; right; eexists; eexists; split; reflexivity ].
Qed.

(** X3.  When the insert of the event fails, the log row that was inserted just
    before stays: a run that tried the event insert and ended with a
    datastore error has appended one log row and no event. *)
Theorem failed_event_insert_leaves_log_row :
  forall env params w r w' evs event msg,
    handle env params w = (r, w', evs) ->
    In (EInsertEmailLogEvent event) evs ->
    r = Throw (DatastoreError msg) ->
    (exists log, emailLogs w' = emailLogs w ++ [log])
    /\ emailLogEvents w' = emailLogEvents w.
Proof.
  intros env params w r w' evs event msg Hrun Hin Hr.
  run_all Hrun; find_dispatch Hin; try discriminate.
  all: split; [eexists|]; reflexivity.
Qed.

Lemma failed_event_insert_leaves_log_row_witness :
  let env := Cases.faulty 10 false in
  let params := Sample.request (Sample.mail "hello@mly.fyi" (One "a@b.com") "Hello") in
  let run := handle env params Sample.world in
  fst (fst run) = Throw (DatastoreError "SQLITE_BUSY")
  /\ (exists log, emailLogs (snd (fst run)) = emailLogs Sample.world ++ [log])
  /\ emailLogEvents (snd (fst run)) = emailLogEvents Sample.world.
Proof.
  intros env params run.
  assert (Hrun : handle env params Sample.world
                 = (fst (fst run), snd (fst run), snd run))
    by (vm_compute; reflexivity).
  assert (Hr : fst (fst run) = Throw (DatastoreError "SQLITE_BUSY"))
    by (vm_compute; reflexivity).
  split; [exact Hr|].
  refine (failed_event_insert_leaves_log_row env params Sample.world
            (fst (fst run)) (snd (fst run)) (snd run)
            {| EmailLogEvent.id := "emailLogEvent_5";
               EmailLogEvent.emailLogId := "emailLog_4";
               EmailLogEvent.email := One "a@b.com";
               EmailLogEvent.type := "sending";
               EmailLogEvent.timestamp := 1700000000009 |}
            "SQLITE_BUSY" Hrun _ Hr).
  vm_compute. do 5 right. left. reflexivity.
Defined.

(** ** Who may send, and what is sent *)

Lemma selectProject_found :
  forall w id project,
    selectProject w id = Some project ->
    In project (projects w) /\ Project.id project = id.
Proof.
  intros w id project H. unfold selectProject in H.
  apply find_some in H. destruct H as [Hin H].
  split; [exact Hin | apply String.eqb_eq, H].
Qed.

Lemma selectIdentity_found :
  forall w projectId domain identity,
    selectIdentity w projectId domain = Some identity ->
    In identity (projectIdentities w)
    /\ ProjectIdentity.projectId identity = projectId
    /\ domain = Some (ProjectIdentity.domain identity).
Proof.
  intros w projectId domain identity H. unfold selectIdentity in H.
  apply find_some in H. destruct H as [Hin H].
  apply andb_true_iff in H. destruct H as [Hp Hd].
  split; [exact Hin|]. split; [apply String.eqb_eq, Hp|].
  destruct domain as [d|]; [|discriminate].
  apply String.eqb_eq in Hd. rewrite Hd. reflexivity.
Qed.

(** X4.  The provider is called only on behalf of the owner of a verified
    identity: in every run that calls it, the API key authenticated, its
    project is a row of [projects], and [projectIdentities] has a row of
    that very project whose domain is the sender's domain, whose status is
    ['success'] and whose configuration set name is a non-empty string; and
    neither [to] nor [replyTo] is an array. *)
Theorem dispatch_is_authorized :
  forall env params w r w' evs config email result,
    handle env params w = (r, w', evs) ->
    In (ESendEmail config email result) evs ->
    exists key project identity name,
      authenticateApiKey env (context params) w = inr key
      /\ In project (projects w)
      /\ Project.id project = ProjectApiKey.projectId key
      /\ In identity (projectIdentities w)
      /\ ProjectIdentity.projectId identity = Project.id project
      /\ fromDomain (from (body params)) = Some (ProjectIdentity.domain identity)
      /\ ProjectIdentity.status identity = "success"
      /\ ProjectIdentity.configurationSetName identity = Some name
      /\ name <> ""
      /\ isArray (to (body params)) = false
      /\ isArrayOpt (replyTo (body params)) = false.
Proof.
  intros env params w r w' evs config email result Hrun Hin.
  run_all Hrun; find_dispatch Hin.
  all: repeat match goal with
         | E : selectProject _ _ = Some _ |- _ =>
             apply selectProject_found in E; destruct E as [? ?]
         | E : selectIdentity _ _ _ = Some _ |- _ =>
             apply selectIdentity_found in E; destruct E as (? & ? & ?)
         | E : Js.whenTruthy (ProjectIdentity.configurationSetName _) = Some _ |- _ =>
             apply whenTruthy_Some in E; destruct E as [? ?]
         | E : negb (String.eqb _ "success") = false |- _ =>
             apply status_checked in E
         | E : _ || _ = false |- _ =>
             apply orb_false_iff in E; destruct E as [? ?]
         end.
  all: do 4 eexists; repeat split; eassumption.
Qed.

Lemma dispatch_is_authorized_witness :
  let params := Sample.request (Sample.mail "hello@mly.fyi" (One "a@b.com") "Hello") in
  exists key project identity name,
    authenticateApiKey Sample.env (context params) Sample.world = inr key
    /\ In project (projects Sample.world)
    /\ Project.id project = ProjectApiKey.projectId key
    /\ In identity (projectIdentities Sample.world)
    /\ ProjectIdentity.projectId identity = Project.id project
    /\ fromDomain (from (body params)) = Some (ProjectIdentity.domain identity)
    /\ ProjectIdentity.status identity = "success"
    /\ ProjectIdentity.configurationSetName identity = Some name
    /\ name <> ""
    /\ isArray (to (body params)) = false
    /\ isArrayOpt (replyTo (body params)) = false.
Proof.
  intros params.
  pose (run := handle Sample.env params Sample.world).
  assert (Hrun : handle Sample.env params Sample.world
                 = (fst (fst run), snd (fst run), snd run))
    by (vm_compute; reflexivity).
  refine (dispatch_is_authorized Sample.env params Sample.world
            (fst (fst run)) (snd (fst run)) (snd run)
            {| provider := "ses";
               ses := {| ses_accessKeyId := "AKIA";
                         ses_secretAccessKey := "secret";
                         ses_region := "us-east-1" |} |}
            {| from := "hello@mly.fyi";
               to := One "a@b.com";
               replyTo := None;
               subject := "Hello";
               text := Some "Hello World";
               html := Some "<p>Hello World</p>";
               headers := [("X-SES-CONFIGURATION-SET", "mly-tracking")] |}
            {| data := Some {| data_messageId := "ses-3" |}; error := None |}
            Hrun _).
  vm_compute. do 3 right. left. reflexivity.
Defined.

Lemma get_set_same :
  forall k v o, Js.get k (Js.set k v o) = Some v.
Proof.
  intros k v o. induction o as [|[k' v'] o IH]; cbn.
  - rewrite String.eqb_refl. reflexivity.
  - destruct (String.eqb k' k) eqn:E; cbn.
    + rewrite String.eqb_refl. reflexivity.
    + rewrite E. exact IH.
Qed.

Lemma get_set_other :
  forall k k' v o, k' <> k -> Js.get k' (Js.set k v o) = Js.get k' o.
Proof.
  intros k k' v o Hne. induction o as [|[k0 v0] o IH]; cbn.
  - apply String.eqb_neq in Hne. rewrite String.eqb_sym, Hne. reflexivity.
  - destruct (String.eqb k0 k) eqn:E; cbn.
    + apply String.eqb_eq in E. subst k0.
      apply String.eqb_neq in Hne. rewrite String.eqb_sym in Hne.
      rewrite Hne. reflexivity.
    + destruct (String.eqb k0 k'); [reflexivity | exact IH].
Qed.

(** X5.  What the provider is given is the body as it came, except for one
    header: [X-SES-CONFIGURATION-SET] holds the configuration set name of
    the identity that was looked up, also when the client sent a header of
    that name; every other header, and [from], [to], [replyTo], [subject],
    [text] and [html], are the body's. *)
Theorem dispatch_carries_configuration_set :
  forall env params w key project identity r w' evs config email result,
    authenticateApiKey env (context params) w = inr key ->
    selectProject w (ProjectApiKey.projectId key) = Some project ->
    selectIdentity w (Project.id project) (fromDomain (from (body params)))
      = Some identity ->
    handle env params w = (r, w', evs) ->
    In (ESendEmail config email result) evs ->
    Js.get "X-SES-CONFIGURATION-SET" (headers email)
      = ProjectIdentity.configurationSetName identity
    /\ (forall k, k <> "X-SES-CONFIGURATION-SET" ->
                  Js.get k (headers email) = Js.get k (headers (body params)))
    /\ from email = from (body params)
    /\ to email = to (body params)
    /\ replyTo email = replyTo (body params)
    /\ subject email = subject (body params)
    /\ text email = text (body params)
    /\ html email = html (body params).
Proof.
  intros env params w key project identity r w' evs config email result
    Hauth Hproj Hid Hrun Hin.
  change (selectProject w) with (selectProject (advance w)) in Hproj.
  change (selectIdentity w) with (selectIdentity (advance (advance w))) in Hid.
  run_all Hrun; find_dispatch Hin.
  all: injection Hin as _ <- _; cbn [headers from to replyTo subject text html].
  all: match goal with
       | E : Js.whenTruthy (ProjectIdentity.configurationSetName _) = Some _ |- _ =>
           apply whenTruthy_Some in E; destruct E as [E _]; rewrite E
       end.
  all: split; [apply get_set_same|].
  all: split; [intros k Hk; apply get_set_other; exact Hk|].
  all: repeat split.
Qed.

Lemma dispatch_carries_configuration_set_witness :
  let params := Sample.request Cases.tagged in
  let email :=
    {| from := "hello@mly.fyi";
       to := One "a@b.com";
       replyTo := Some (One "reply@mly.fyi");
       subject := "Hello";
       text := Some "Hello World";
       html := None;
       headers := [("X-Campaign", "spring");
                   ("X-SES-CONFIGURATION-SET", "mly-tracking")] |} in
  In (ESendEmail
        {| provider := "ses";
           ses := {| ses_accessKeyId := "AKIA";
                     ses_secretAccessKey := "secret";
                     ses_region := "us-east-1" |} |}
        email
        {| data := Some {| data_messageId := "ses-3" |}; error := None |})
     (snd (handle Sample.env params Sample.world))
  /\ Js.get "X-SES-CONFIGURATION-SET" (headers (body params)) = Some "spoofed"
  /\ Js.get "X-SES-CONFIGURATION-SET" (headers email)
     = ProjectIdentity.configurationSetName Cases.verified
  /\ Js.get "X-Campaign" (headers email)
     = Js.get "X-Campaign" (headers (body params)).
Proof.
  intros params email.
  pose (run := handle Sample.env params Sample.world).
  assert (Hrun : handle Sample.env params Sample.world
                 = (fst (fst run), snd (fst run), snd run))
    by (vm_compute; reflexivity).
  assert (Hin : In (ESendEmail
                      {| provider := "ses";
                         ses := {| ses_accessKeyId := "AKIA";
                                   ses_secretAccessKey := "secret";
                                   ses_region := "us-east-1" |} |}
                      email
                      {| data := Some {| data_messageId := "ses-3" |};
                         error := None |})
                   (snd run))
    by (vm_compute; do 3 right; left; reflexivity).
  split; [exact Hin|]. split; [reflexivity|].
  destruct (dispatch_carries_configuration_set
              Sample.env params Sample.world Sample.key Sample.project
              Cases.verified (fst (fst run)) (snd (fst run)) (snd run)
              _ email _ eq_refl eq_refl eq_refl Hrun Hin) as (H1 & H2 & _).
  split; [exact H1|].
  apply H2. discriminate.
Defined.

Lemma whenTruthy_or_default :
  forall v d,
    match Js.whenTruthy v with
    | Some r => r
    | None => d
    end
    = (if Js.truthy v then Js.show v else d).
Proof.
  intros v d. unfold Js.whenTruthy. destruct (Js.truthy v) eqn:T.
  - destruct v; [reflexivity | discriminate T].
  - reflexivity.
Qed.

(** X6.  The provider is called as ['ses'] with the access key and the secret
    key of the caller's project, both non-empty, and in the project's
    region, or in [DEFAULT_SES_REGION] when the project's region is null or
    empty. *)
Theorem dispatch_uses_project_credentials :
  forall env params w key project r w' evs config email result,
    authenticateApiKey env (context params) w = inr key ->
    selectProject w (ProjectApiKey.projectId key) = Some project ->
    handle env params w = (r, w', evs) ->
    In (ESendEmail config email result) evs ->
    provider config = "ses"
    /\ Project.accessKeyId project = Some (ses_accessKeyId (ses config))
    /\ ses_accessKeyId (ses config) <> ""
    /\ Project.secretAccessKey project = Some (ses_secretAccessKey (ses config))
    /\ ses_secretAccessKey (ses config) <> ""
    /\ ses_region (ses config)
       = (if Js.truthy (Project.region project)
          then Js.show (Project.region project)
          else DEFAULT_SES_REGION env).
Proof.
  intros env params w key project r w' evs config email result
    Hauth Hproj Hrun Hin.
  change (selectProject w) with (selectProject (advance w)) in Hproj.
  run_all Hrun; find_dispatch Hin.
  all: injection Hin as <- _ _; cbn [provider ses ses_accessKeyId ses_secretAccessKey ses_region].
  all: repeat match goal with
         | E : Js.whenTruthy (Project.accessKeyId _) = Some _ |- _ =>
             apply whenTruthy_Some in E; destruct E as [? ?]
         | E : Js.whenTruthy (Project.secretAccessKey _) = Some _ |- _ =>
             apply whenTruthy_Some in E; destruct E as [? ?]
         end.
  all: repeat split; try assumption.
  all: rewrite <- whenTruthy_or_default.
  all: match goal with
       | E : Js.whenTruthy (Project.region _) = _ |- _ => rewrite E; reflexivity
       end.
Qed.

Lemma dispatch_uses_project_credentials_witness :
  let params := Sample.request (Sample.mail "hello@mly.fyi" (One "a@b.com") "Hello") in
  let config :=
    {| provider := "ses";
       ses := {| ses_accessKeyId := "AKIA";
                 ses_secretAccessKey := "secret";
                 ses_region := "eu-west-1" |} |} in
  let email :=
    {| from := "hello@mly.fyi";
       to := One "a@b.com";
       replyTo := None;
       subject := "Hello";
       text := Some "Hello World";
       html := Some "<p>Hello World</p>";
       headers := [("X-SES-CONFIGURATION-SET", "mly-tracking")] |} in
  let result :=
    {| data := Some {| data_messageId := "ses-3" |}; error := None |} in
  In (ESendEmail config email result)
     (snd (handle Sample.env params (Cases.world [Cases.regional])))
  /\ provider config = "ses"
  /\ Project.accessKeyId Cases.regional = Some (ses_accessKeyId (ses config))
  /\ ses_accessKeyId (ses config) <> ""
  /\ Project.secretAccessKey Cases.regional = Some (ses_secretAccessKey (ses config))
  /\ ses_secretAccessKey (ses config) <> ""
  /\ ses_region (ses config)
     = (if Js.truthy (Project.region Cases.regional)
        then Js.show (Project.region Cases.regional)
        else DEFAULT_SES_REGION Sample.env).
Proof.
  intros params config email result.
  pose (run := handle Sample.env params (Cases.world [Cases.regional])).
  assert (Hrun : handle Sample.env params (Cases.world [Cases.regional])
                 = (fst (fst run), snd (fst run), snd run))
    by (vm_compute; reflexivity).
  assert (Hin : In (ESendEmail config email result) (snd run))
    by (vm_compute; do 3 right; left; reflexivity).
  split; [exact Hin|].
  exact (dispatch_uses_project_credentials
           Sample.env params (Cases.world [Cases.regional]) Sample.key
           Cases.regional
           (fst (fst run)) (snd (fst run)) (snd run) config email result
           eq_refl eq_refl Hrun Hin).
Defined.

(** ** Rejections *)

(** X7.  A failing authentication ends the run: its error is thrown as it is,
    and a key whose project is not (or no longer) in [projects] is answered
    with ['not_found'], before any identity lookup.  In both cases the
    provider is not called and no row is written. *)
Theorem unauthenticated_or_orphan_key_is_rejected :
  forall env params w,
    healthy env ->
    (forall e,
        authenticateApiKey env (context params) w = inl e ->
        handle env params w
        = (Throw e, advance w, [EAuthenticate (context params)]))
    /\ (forall key,
           authenticateApiKey env (context params) w = inr key ->
           selectProject w (ProjectApiKey.projectId key) = None ->
           handle env params w
           = (Throw (HttpError "not_found" "Project not found"),
              advance (advance w),
              [EAuthenticate (context params);
               EFindProject (ProjectApiKey.projectId key)])).
Proof.
  intros env params w Hh. split.
  - intros e Hauth.
    destruct (handle env params w) as [[r w'] evs] eqn:Hrun.
    run_all Hrun. reflexivity.
  - intros key Hauth Hproj.
    change (selectProject w) with (selectProject (advance w)) in Hproj.
    destruct (handle env params w) as [[r w'] evs] eqn:Hrun.
    run_all Hrun. reflexivity.
Qed.

Lemma unauthenticated_or_orphan_key_is_rejected_witness :
  (let params :=
     {| body := Sample.mail "hello@mly.fyi" (One "a@b.com") "Hello";
        userId := None;
        user := None;
        context := Sample.browser "jwt:user_1" |} in
   handle Sample.env params Sample.world
   = (Throw (HttpError "unauthorized" "Invalid API key"),
      advance Sample.world, [EAuthenticate (context params)]))
  /\ (let params := Sample.request (Sample.mail "hello@mly.fyi" (One "a@b.com") "Hello") in
      handle Sample.env params (Cases.world [])
      = (Throw (HttpError "not_found" "Project not found"),
         advance (advance (Cases.world [])),
         [EAuthenticate (context params); EFindProject "project_1"])).
Proof.
  split; intros params.
  - exact (proj1 (unauthenticated_or_orphan_key_is_rejected
                    Sample.env params Sample.world sample_healthy)
             _ eq_refl).
  - exact (proj2 (unauthenticated_or_orphan_key_is_rejected
                    Sample.env params (Cases.world []) sample_healthy)
             Sample.key eq_refl eq_refl).
Defined.

(** X8.  The checks on the identity come in the order of the source and each
    names its cause.  For a request with single recipients whose sender
    domain has an identity: a status other than ['success'] gives 'Identity
    ... is not verified.', whatever the configuration set; with status
    ['success'], a configuration set name that is null or the empty string
    gives 'Configuration set is not configured for ... domain.'.  Both
    rejections come right after the identity lookup. *)
Theorem identity_rejections_name_the_cause :
  forall env params w key project identity,
    healthy env ->
    authenticateApiKey env (context params) w = inr key ->
    selectProject w (ProjectApiKey.projectId key) = Some project ->
    isArray (to (body params)) || isArrayOpt (replyTo (body params)) = false ->
    selectIdentity w (Project.id project) (fromDomain (from (body params)))
      = Some identity ->
    let rejected message :=
      handle env params w
      = (Throw (HttpError "bad_request" message),
         advance (advance (advance w)),
         [EAuthenticate (context params);
          EFindProject (ProjectApiKey.projectId key);
          EFindIdentity (Project.id project) (fromDomain (from (body params)))]) in
    (ProjectIdentity.status identity <> "success" ->
     rejected ("Identity " ++ Js.show (fromDomain (from (body params)))
               ++ " is not verified.")%string)
    /\ (ProjectIdentity.status identity = "success" ->
        Js.truthy (ProjectIdentity.configurationSetName identity) = false ->
        rejected ("Configuration set is not configured for "
                  ++ Js.show (fromDomain (from (body params)))
                  ++ " domain.")%string).
Proof.
  intros env params w key project identity Hh Hauth Hproj Hsingle Hid rejected.
  unfold rejected.
  change (selectProject w) with (selectProject (advance w)) in Hproj.
  change (selectIdentity w) with (selectIdentity (advance (advance w))) in Hid.
  split.
  - intros Hs. apply String.eqb_neq in Hs.
    destruct (handle env params w) as [[r w'] evs] eqn:Hrun.
    unfold_run Hrun.
    rewrite Hauth in Hrun; cbn beta iota in Hrun.
    rewrite !(healthy_at env _ Hh) in Hrun; cbn beta iota in Hrun.
    rewrite Hproj in Hrun; cbn beta iota in Hrun.
    rewrite Hsingle in Hrun; cbn beta iota in Hrun.
    rewrite !(healthy_at env _ Hh) in Hrun; cbn beta iota in Hrun.
    rewrite Hid in Hrun; cbn beta iota in Hrun.
    rewrite Hs in Hrun; cbn in Hrun.
    rewrite <- Hrun. reflexivity.
  - intros Hs Hc.
    assert (Hw : Js.whenTruthy (ProjectIdentity.configurationSetName identity) = None).
    { unfold Js.whenTruthy. rewrite Hc. reflexivity. }
    destruct (handle env params w) as [[r w'] evs] eqn:Hrun.
    unfold_run Hrun.
    rewrite Hauth in Hrun; cbn beta iota in Hrun.
    rewrite !(healthy_at env _ Hh) in Hrun; cbn beta iota in Hrun.
    rewrite Hproj in Hrun; cbn beta iota in Hrun.
    rewrite Hsingle in Hrun; cbn beta iota in Hrun.
    rewrite !(healthy_at env _ Hh) in Hrun; cbn beta iota in Hrun.
    rewrite Hid in Hrun; cbn beta iota in Hrun.
    rewrite Hs in Hrun; cbn beta iota in Hrun.
    change (negb ("success" =? "success")%string) with false in Hrun.
    cbn beta iota in Hrun.
    rewrite Hw in Hrun; cbn in Hrun.
    rewrite <- Hrun. reflexivity.
Qed.

Lemma identity_rejections_name_the_cause_witness :
  (let params := Sample.request (Sample.mail "hello@pending.dev" (One "a@b.com") "Hello") in
   handle Sample.env params Sample.world
   = (Throw (HttpError "bad_request" "Identity pending.dev is not verified."),
      advance (advance (advance Sample.world)),
      [EAuthenticate (context params); EFindProject "project_1";
       EFindIdentity "project_1" (Some "pending.dev")]))
  /\ (let params := Sample.request (Sample.mail "hello@blank.dev" (One "a@b.com") "Hello") in
      let w := Cases.world [Sample.project] in
      handle Sample.env params w
      = (Throw (HttpError "bad_request"
                  "Configuration set is not configured for blank.dev domain."),
         advance (advance (advance w)),
         [EAuthenticate (context params); EFindProject "project_1";
          EFindIdentity "project_1" (Some "blank.dev")])).
Proof.
  split.
  - intros params.
    refine (proj1 (identity_rejections_name_the_cause
                     Sample.env params Sample.world Sample.key Sample.project
                     Sample.pending sample_healthy eq_refl eq_refl eq_refl eq_refl)
              _).
    discriminate.
  - intros params w.
    exact (proj2 (identity_rejections_name_the_cause
                    Sample.env params w Sample.key Sample.project
                    Cases.blank sample_healthy eq_refl eq_refl eq_refl eq_refl)
             eq_refl eq_refl).
Defined.

(** X9.  Credentials are checked last before the provider call.  When the
    project's access key or secret key is null or the empty string, a
    request that passed every earlier check is rejected with 'Invalid
    project credentials'; the provider is not called and no row is
    written. *)
Theorem missing_credentials_are_rejected :
  forall env params w key project identity,
    healthy env ->
    authenticateApiKey env (context params) w = inr key ->
    selectProject w (ProjectApiKey.projectId key) = Some project ->
    isArray (to (body params)) || isArrayOpt (replyTo (body params)) = false ->
    selectIdentity w (Project.id project) (fromDomain (from (body params)))
      = Some identity ->
    ProjectIdentity.status identity = "success" ->
    Js.truthy (ProjectIdentity.configurationSetName identity) = true ->
    Js.truthy (Project.accessKeyId project)
    && Js.truthy (Project.secretAccessKey project) = false ->
    handle env params w
    = (Throw (HttpError "bad_request" "Invalid project credentials"),
       advance (advance (advance w)),
       [EAuthenticate (context params);
        EFindProject (ProjectApiKey.projectId key);
        EFindIdentity (Project.id project) (fromDomain (from (body params)))]).
Proof.
  intros env params w key project found Hh Hauth Hproj Hsingle Hid Hs Hc Hk.
  change (selectProject w) with (selectProject (advance w)) in Hproj.
  change (selectIdentity w) with (selectIdentity (advance (advance w))) in Hid.
  destruct (handle env params w) as [[r w'] evs] eqn:Hrun.
  run_all Hrun; try reflexivity.
  all: try match goal with
         | E : negb (String.eqb _ "success") = true |- _ =>
             rewrite Hs in E; discriminate E
         end.
  all: try match goal with
         | E : Js.whenTruthy (ProjectIdentity.configurationSetName _) = None |- _ =>
             unfold Js.whenTruthy in E; rewrite Hc in E;
             destruct (ProjectIdentity.configurationSetName found);
             discriminate
         end.
  all: exfalso.
  all: repeat match goal with
         | E : Js.whenTruthy (Project.accessKeyId _) = Some _ |- _ =>
             unfold Js.whenTruthy in E;
             destruct (Js.truthy (Project.accessKeyId project));
             [clear E | discriminate E]
         | E : Js.whenTruthy (Project.secretAccessKey _) = Some _ |- _ =>
             unfold Js.whenTruthy in E;
             destruct (Js.truthy (Project.secretAccessKey project));
             [clear E | discriminate E]
         end.
  all: discriminate Hk.
Qed.

Lemma missing_credentials_are_rejected_witness :
  let params := Sample.request (Sample.mail "hello@mly.fyi" (One "a@b.com") "Hello") in
  let w := Cases.world [Cases.keyless] in
  Project.secretAccessKey Cases.keyless = Some ""
  /\ handle Sample.env params w
     = (Throw (HttpError "bad_request" "Invalid project credentials"),
        advance (advance (advance w)),
        [EAuthenticate (context params); EFindProject "project_1";
         EFindIdentity "project_1" (Some "mly.fyi")]).
Proof.
  intros params w. split; [reflexivity|].
  exact (missing_credentials_are_rejected
           Sample.env params w Sample.key Cases.keyless Cases.verified
           sample_healthy eq_refl eq_refl eq_refl eq_refl eq_refl eq_refl eq_refl).
Defined.

(** ** What the rows record *)

(** X10.  The rows describe the request and its caller.  A log row that a run
    inserts carries the body's [from], [to], [replyTo], [subject], [text]
    and [html], the id of the caller's project and the id of the API key;
    its status is ['sending'] with a message id, or ['error'] without one.
    An event that a run inserts carries the body's [to] as its [email], and
    its type is ['sending'] or ['error']. *)
Theorem rows_record_the_request :
  forall env params w key project r w' evs,
    authenticateApiKey env (context params) w = inr key ->
    selectProject w (ProjectApiKey.projectId key) = Some project ->
    handle env params w = (r, w', evs) ->
    (forall row,
        In (EInsertEmailLog row) evs ->
        EmailLog.from row = from (body params)
        /\ EmailLog.to row = to (body params)
        /\ EmailLog.replyTo row = replyTo (body params)
        /\ EmailLog.subject row = subject (body params)
        /\ EmailLog.text row = text (body params)
        /\ EmailLog.html row = html (body params)
        /\ EmailLog.projectId row = Project.id project
        /\ EmailLog.apiKeyId row = ProjectApiKey.id key
        /\ ((EmailLog.status row = "sending" /\ EmailLog.messageId row <> None)
            \/ (EmailLog.status row = "error" /\ EmailLog.messageId row = None)))
    /\ (forall event,
           In (EInsertEmailLogEvent event) evs ->
           EmailLogEvent.email event = to (body params)
           /\ (EmailLogEvent.type event = "sending"
               \/ EmailLogEvent.type event = "error")).
Proof.
  intros env params w key project r w' evs Hauth Hproj Hrun.
  change (selectProject w) with (selectProject (advance w)) in Hproj.
  run_all Hrun.
  all: split; [intros row Hin | intros event Hin]; find_dispatch Hin.
  all: try (injection Hin as <-; cbn; repeat split;
            solve [ left; split; [reflexivity | discriminate]
                  | right; split; reflexivity
                  | left; reflexivity
                  | right; reflexivity ]).
Qed.

Lemma rows_record_the_request_witness :
  let params := Sample.request Cases.tagged in
  let run := handle Sample.env params Sample.world in
  (exists row event,
      In (EInsertEmailLog row) (snd run)
      /\ In (EInsertEmailLogEvent event) (snd run))
  /\ (forall row,
         In (EInsertEmailLog row) (snd run) ->
         EmailLog.from row = "hello@mly.fyi"
         /\ EmailLog.to row = One "a@b.com"
         /\ EmailLog.replyTo row = Some (One "reply@mly.fyi")
         /\ EmailLog.subject row = "Hello"
         /\ EmailLog.text row = Some "Hello World"
         /\ EmailLog.html row = None
         /\ EmailLog.projectId row = "project_1"
         /\ EmailLog.apiKeyId row = "key_1"
         /\ ((EmailLog.status row = "sending" /\ EmailLog.messageId row <> None)
             \/ (EmailLog.status row = "error" /\ EmailLog.messageId row = None)))
  /\ (forall event,
         In (EInsertEmailLogEvent event) (snd run) ->
         EmailLogEvent.email event = One "a@b.com"
         /\ (EmailLogEvent.type event = "sending"
             \/ EmailLogEvent.type event = "error")).
Proof.
  intros params run.
  assert (Hrun : handle Sample.env params Sample.world
                 = (fst (fst run), snd (fst run), snd run))
    by (vm_compute; reflexivity).
  split.
  - vm_compute. eexists. eexists.
    split; [do 4 right; left; reflexivity | do 5 right; left; reflexivity].
  - exact (rows_record_the_request
             Sample.env params Sample.world Sample.key Sample.project
             (fst (fst run)) (snd (fst run)) (snd run)
             eq_refl eq_refl Hrun).
Defined.

(** ** What the schema leaves *)

Lemma lowerUnit_idempotent :
  forall c, Js.lowerUnit (Js.lowerUnit c) = Js.lowerUnit c.
Proof.
  intros c. destruct c as [[] [] [] [] [] [] [] []]; vm_compute; reflexivity.
Qed.

Lemma isWhiteSpace_lowerUnit :
  forall c, Js.isWhiteSpace (Js.lowerUnit c) = Js.isWhiteSpace c.
Proof.
  intros c. destruct c as [[] [] [] [] [] [] [] []]; vm_compute; reflexivity.
Qed.

Lemma toLowerCase_idempotent :
  forall s, Js.toLowerCase (Js.toLowerCase s) = Js.toLowerCase s.
Proof.
  induction s as [|c s IH]; cbn.
  - reflexivity.
  - rewrite lowerUnit_idempotent, IH. reflexivity.
Qed.

Lemma toLowerCase_trimStart :
  forall s, Js.toLowerCase (Js.trimStart s) = Js.trimStart (Js.toLowerCase s).
Proof.
  induction s as [|c s IH]; cbn.
  - reflexivity.
  - rewrite isWhiteSpace_lowerUnit.
    destruct (Js.isWhiteSpace c); [exact IH | reflexivity].
Qed.

Lemma toLowerCase_trimEnd :
  forall s, Js.toLowerCase (Js.trimEnd s) = Js.trimEnd (Js.toLowerCase s).
Proof.
  induction s as [|c s IH]; cbn.
  - reflexivity.
  - rewrite <- IH, isWhiteSpace_lowerUnit.
    destruct (Js.trimEnd s) as [|d r]; cbn.
    + destruct (Js.isWhiteSpace c); reflexivity.
    + reflexivity.
Qed.

Lemma toLowerCase_trim :
  forall s, Js.toLowerCase (Js.trim s) = Js.trim (Js.toLowerCase s).
Proof.
  intros s. unfold Js.trim.
  rewrite toLowerCase_trimEnd, toLowerCase_trimStart. reflexivity.
Qed.

Lemma trimEnd_cons :
  forall c s,
    Js.trimEnd (String c s)
    = match Js.trimEnd s with
      | EmptyString => if Js.isWhiteSpace c then EmptyString else String c EmptyString
      | String d r => String c (String d r)
      end.
Proof. reflexivity. Qed.

Lemma trimEnd_idempotent :
  forall s, Js.trimEnd (Js.trimEnd s) = Js.trimEnd s.
Proof.
  induction s as [|c s IH].
  - reflexivity.
  - rewrite trimEnd_cons.
    destruct (Js.trimEnd s) as [|d r] eqn:E.
    + destruct (Js.isWhiteSpace c) eqn:W; [reflexivity|].
      rewrite trimEnd_cons. cbn [Js.trimEnd]. rewrite W. reflexivity.
    + rewrite trimEnd_cons, IH. reflexivity.
Qed.

(** [trimEnd] keeps a first unit that is no white space. *)
Lemma trimEnd_keeps_head :
  forall c s,
    Js.isWhiteSpace c = false ->
    exists r, Js.trimEnd (String c s) = String c r.
Proof.
  intros c s W. cbn. destruct (Js.trimEnd s).
  - rewrite W. eexists. reflexivity.
  - eexists. reflexivity.
Qed.

Lemma trimStart_head :
  forall s,
    Js.trimStart s = ""
    \/ exists c r, Js.trimStart s = String c r /\ Js.isWhiteSpace c = false.
Proof.
  induction s as [|c s IH]; cbn.
  - left. reflexivity.
  - destruct (Js.isWhiteSpace c) eqn:W; [exact IH|].
    right. exists c, s. split; [reflexivity | exact W].
Qed.

Lemma trim_idempotent :
  forall s, Js.trim (Js.trim s) = Js.trim s.
Proof.
  intros s. unfold Js.trim.
  destruct (trimStart_head s) as [E | (c & r & E & W)]; rewrite E.
  - reflexivity.
  - destruct (trimEnd_keeps_head c r W) as [r' E'].
    replace (Js.trimStart (Js.trimEnd (String c r))) with (Js.trimEnd (String c r)).
    + apply trimEnd_idempotent.
    + rewrite E'. cbn. rewrite W. reflexivity.
Qed.

(** What a string schema lets through. *)
Lemma string_value_normal :
  forall rule sch path v s,
    Joi.value (Joi.string_ rule sch path v) = Some s ->
    Js.trim s = s
    /\ (Joi.allowEmpty sch = false -> s <> "")
    /\ (Joi.lowercase sch = true -> Js.toLowerCase s = s)
    /\ (Joi.email sch = true -> s <> "" -> rule s = true).
Proof.
  intros rule sch path v s. unfold Joi.string_.
  destruct v; try (cbn; discriminate);
    [destruct (Joi.required sch); cbn; discriminate|].
  set (s1 := if Joi.lowercase sch then Js.toLowerCase s0 else s0).
  destruct (String.eqb (Js.trim s1) "") eqn:E.
  - destruct (Joi.allowEmpty sch) eqn:A; cbn; [|discriminate].
    intros H. injection H as <-. apply String.eqb_eq in E.
    rewrite E. repeat split; try reflexivity; try discriminate.
    intros _ Hne. contradiction Hne. reflexivity.
  - destruct (Joi.email sch && negb (rule (Js.trim s1))) eqn:R; cbn; [discriminate|].
    intros H. injection H as <-. apply String.eqb_neq in E.
    split; [apply trim_idempotent|]. split; [intros _; exact E|]. split.
    + intros L. unfold s1. rewrite L.
      rewrite toLowerCase_trim, toLowerCase_idempotent. reflexivity.
    + intros M _. rewrite M in R. cbn in R.
      apply negb_false_iff in R. exact R.
Qed.

Lemma set_keeps :
  forall (P : string * string -> Prop) k v o,
    P (k, v) -> Forall P o -> Forall P (Js.set k v o).
Proof.
  intros P k v o Hkv H. induction H as [|[k' v'] o Hx Ho IH]; cbn.
  - constructor; [exact Hkv | constructor].
  - destruct (String.eqb k' k); constructor; assumption.
Qed.

Lemma headers_value_clean :
  forall rule v h,
    Joi.value (Joi.headers_ rule v) = Some h -> Forall cleanHeader h.
Proof.
  intros rule v h. unfold Joi.headers_.
  destruct v; cbn; try discriminate.
  - intros H. injection H as <-. constructor.
  - assert (G : forall (acc : Joi.Outcome (list (string * string))),
               (forall a, Joi.value acc = Some a -> Forall cleanHeader a) ->
               forall b,
                 Joi.value (fold_left (Joi.headerEntry rule) o acc) = Some b ->
                 Forall cleanHeader b).
    { induction o as [|[k x] o IH]; intros acc Hacc b; cbn [fold_left].
      - apply Hacc.
      - apply IH. intros a. unfold Joi.headerEntry.
        destruct (String.eqb (Js.trim k) "") eqn:K; [apply Hacc|].
        cbn [Joi.value].
        destruct (Joi.value acc) as [a0|] eqn:A; [|discriminate].
        destruct (Joi.value (Joi.string_ rule Joi.requiredString _ x)) as [s|] eqn:S.
        + intros H. injection H as <-.
          apply set_keeps; [|apply Hacc; reflexivity].
          apply string_value_normal in S. destruct S as (T & N & _).
          split; [apply String.eqb_neq, K|].
          split; [apply N; reflexivity | exact T].
        + intros H. injection H as <-. apply Hacc. reflexivity. }
    apply G. intros a H. injection H as <-. constructor.
Qed.

(** X11.  A request that [validate] accepts is in normal form.  [from] and
    [subject] are trimmed and not empty; [to] is a single address, trimmed,
    not empty, in lower case and accepted by Joi's e-mail rule, and so is
    [replyTo] when there is one; [text] and [html] are trimmed and at least
    one of them is not empty; every header has a name that is not blank and
    a trimmed, non-empty value.  The other parameters of the request are
    passed on as they came, and nothing else is done. *)
Theorem accepted_body_is_normalised :
  forall env params w validated w' evs,
    validate env params w = (Normal validated, w', evs) ->
    let b := body validated in
    let address a :=
      trimmedNonEmpty a /\ Js.toLowerCase a = a /\ emailRule env a = true in
    trimmedNonEmpty (from b)
    /\ trimmedNonEmpty (subject b)
    /\ (exists a, to b = One a /\ address a)
    /\ (replyTo b = None \/ exists a, replyTo b = Some (One a) /\ address a)
    /\ (forall s, text b = Some s -> Js.trim s = s)
    /\ (forall s, html b = Some s -> Js.trim s = s)
    /\ Js.truthy (text b) || Js.truthy (html b) = true
    /\ Forall cleanHeader (headers b)
    /\ userId validated = userId params
    /\ user validated = user params
    /\ context validated = context params
    /\ w' = w
    /\ evs = [].
Proof.
  intros env params w validated w' evs H b address.
  unfold validate in H.
  destruct (Joi.errors (schema env (body params))); [|discriminate H].
  destruct (Joi.value (schema env (body params))) as [value|] eqn:V;
    [|discriminate H].
  destruct (negb (Js.truthy (text value)) && negb (Js.truthy (html value))) eqn:C;
    [discriminate H|].
  injection H as <- <- <-. subst b. cbn [body userId user context].
  unfold schema in V. cbn [Joi.value] in V.
  destruct (Joi.value (Joi.string_ _ Joi.requiredString "from" _)) as [f|] eqn:Ef;
    [|discriminate V].
  destruct (Joi.value (Joi.string_ _ Joi.requiredEmail "to" _)) as [t|] eqn:Et;
    [|discriminate V].
  destruct (Joi.value (Joi.string_ _ Joi.requiredString "subject" _)) as [s|] eqn:Es;
    [|discriminate V].
  destruct (Joi.value (Joi.headers_ _ _)) as [h|] eqn:Eh; [|discriminate V].
  injection V as <-. cbn [from to replyTo subject text html headers] in *.
  apply string_value_normal in Ef. destruct Ef as (Tf & Nf & _).
  apply string_value_normal in Es. destruct Es as (Ts & Ns & _).
  apply string_value_normal in Et. destruct Et as (Tt & Nt & Lt & Mt).
  specialize (Nf eq_refl). specialize (Ns eq_refl). specialize (Nt eq_refl).
  split; [split; assumption|]. split; [split; assumption|].
  split.
  { exists t. split; [reflexivity|]. split; [split; assumption|].
    split; [apply Lt; reflexivity | apply Mt; [reflexivity | exact Nt]]. }
  split.
  { destruct (Joi.value (Joi.string_ _ Joi.optionalEmail "replyTo" _)) as [a|] eqn:Er;
      cbn; [right | left; reflexivity].
    apply string_value_normal in Er. destruct Er as (Tr & Nr & Lr & Mr).
    specialize (Nr eq_refl).
    exists a. split; [reflexivity|]. split; [split; assumption|].
    split; [apply Lr; reflexivity | apply Mr; [reflexivity | exact Nr]]. }
  split.
  { intros x Hx. apply string_value_normal in Hx. apply Hx. }
  split.
  { intros x Hx. apply string_value_normal in Hx. apply Hx. }
  split.
  { rewrite <- negb_orb in C. apply negb_false_iff in C. exact C. }
  split; [apply (headers_value_clean _ _ _ Eh)|].
  repeat split.
Qed.

Lemma accepted_body_is_normalised_witness :
  let raw :=
    [ ("from", JString "  Hello <hello@mly.fyi>  ");
      ("to", JString " Ada@MLY.fyi ");
      ("subject", JString "Hello ");
      ("html", JString " <p>Hello World</p>");
      ("headers", JObject [("X-Campaign", JString " spring "); ("  ", JNull)]) ] in
  let run := validate Sample.env (Sample.request raw) Sample.world in
  exists validated,
    fst (fst run) = Normal validated
    /\ from (body validated) = "Hello <hello@mly.fyi>"
    /\ to (body validated) = One "ada@mly.fyi"
    /\ headers (body validated) = [("X-Campaign", "spring")]
    /\ trimmedNonEmpty (from (body validated))
    /\ Forall cleanHeader (headers (body validated)).
Proof.
  intros raw run.
  destruct (fst (fst run)) as [validated|] eqn:E; [|discriminate E].
  exists validated.
  assert (Hrun : validate Sample.env (Sample.request raw) Sample.world
                 = (Normal validated, snd (fst run), snd run)).
  { rewrite <- E. vm_compute. reflexivity. }
  pose proof (accepted_body_is_normalised
                Sample.env (Sample.request raw) Sample.world
                validated (snd (fst run)) (snd run) Hrun) as H.
  cbv zeta in H. destruct H as (Hf & _ & _ & _ & _ & _ & _ & Hh & _).
  vm_compute in E. injection E as <-.
  split; [reflexivity|]. split; [reflexivity|]. split; [reflexivity|].
  split; [reflexivity|]. split; [exact Hf | exact Hh].
Defined.

(** ** What the schema reads and reports *)

(** X12.  [validate] reads the seven keys of the schema and nothing else: two
    requests that agree on them are validated alike, so that any other key
    of a body is dropped without an error. *)
Theorem unknown_keys_are_ignored :
  forall env params params' w,
    (forall key, In key knownKeys ->
                 prop key (body params) = prop key (body params')) ->
    userId params = userId params' ->
    user params = user params' ->
    context params = context params' ->
    validate env params w = validate env params' w.
Proof.
  intros env params params' w Hkeys Hid Huser Hctx.
  assert (Hs : schema env (body params) = schema env (body params')).
  { unfold schema.
    rewrite (Hkeys "from"), (Hkeys "to"), (Hkeys "replyTo"), (Hkeys "subject"),
      (Hkeys "text"), (Hkeys "html"), (Hkeys "headers");
      try reflexivity; cbn; tauto. }
  unfold validate. rewrite Hs, Hid, Huser, Hctx. reflexivity.
Qed.

Lemma unknown_keys_are_ignored_witness :
  let raw := Sample.rawMail (JString "a@b.com") (JString "Hello World") in
  validate Sample.env
    (Sample.request (("bcc", JArray [JString "x@y.z"]) :: raw ++ [("priority", JNumber 1)]))
    Sample.world
  = validate Sample.env (Sample.request raw) Sample.world.
Proof.
  intros raw.
  apply unknown_keys_are_ignored; try reflexivity.
  intros key Hkey. cbn in Hkey.
  repeat (destruct Hkey as [<- | Hkey]; [reflexivity|]).
  contradiction.
Defined.

Lemma string_reports_type :
  forall rule sch path v,
    notAString v = true ->
    Joi.errors (Joi.string_ rule sch path v) = [(path, "string.base")].
Proof.
  intros rule sch path v H. destruct v; try discriminate; reflexivity.
Qed.

(** X13.  With [abortEarly: false] one rejection reports every offending key: a
    request in which some string key of the schema holds a value that is
    not a string, or in which [from], [to] or [subject] is missing, is
    rejected with the validation error that lists the errors of all keys,
    and that key is in the list with ['string.base'], respectively
    ['any.required']. *)
Theorem every_offending_key_is_reported :
  forall env params w key,
    let details := Joi.errors (schema env (body params)) in
    (In key stringKeys /\ notAString (prop key (body params)) = true)
    \/ (In key ["from"; "to"; "subject"] /\ prop key (body params) = JUndefined) ->
    validate env params w = (Throw (ValidationError details), w, [])
    /\ In (key,
           if notAString (prop key (body params))
           then "string.base" else "any.required")
          details.
Proof.
  intros env params w key details H.
  assert (Hin : In (key,
                    if notAString (prop key (body params))
                    then "string.base" else "any.required")
                   details).
  { unfold details, schema. cbn [Joi.errors].
    destruct H as [[Hk Hv] | [Hk Hv]].
    - rewrite Hv. cbn in Hk.
      repeat (destruct Hk as [<- | Hk];
              [ rewrite (string_reports_type _ _ _ _ Hv);
                repeat first [ apply in_eq | apply in_or_app; right ];
                apply in_or_app; left; apply in_eq
              | ]).
      contradiction.
    - rewrite Hv. cbn [notAString]. cbn in Hk.
      repeat (destruct Hk as [<- | Hk];
              [ rewrite Hv; cbn;
                repeat first [ apply in_eq | apply in_or_app; right ];
                apply in_or_app; left; apply in_eq
              | ]).
      contradiction. }
  split; [|exact Hin].
  unfold validate. fold details. destruct details; [contradiction Hin|].
  reflexivity.
Qed.

Lemma every_offending_key_is_reported_witness :
  let params :=
    Sample.request [("to", JArray [JString "a@b.com"]); ("subject", JNumber 7)] in
  validate Sample.env params Sample.world
  = (Throw (ValidationError [("from", "any.required"); ("to", "string.base");
                             ("subject", "string.base")]),
     Sample.world, [])
  /\ In ("subject", "string.base") (Joi.errors (schema Sample.env (body params)))
  /\ In ("from", "any.required") (Joi.errors (schema Sample.env (body params))).
Proof.
  intros params.
  destruct (every_offending_key_is_reported Sample.env params Sample.world "subject")
    as [Hv Hs].
  { left. split; [cbn; tauto | reflexivity]. }
  destruct (every_offending_key_is_reported Sample.env params Sample.world "from")
    as [_ Hf].
  { right. split; [cbn; tauto | reflexivity]. }
  split; [exact Hv|]. split; [exact Hs | exact Hf].
Defined.

(** ** The sender's domain, further *)

Lemma containsAt_split :
  forall s,
    containsAt s = true ->
    exists a b, s = (a ++ String "@" b)%string /\ containsAt a = false.
Proof.
  induction s as [|c s IH]; cbn; intros H.
  - discriminate.
  - destruct (Ascii.eqb c "@") eqn:E.
    + apply Ascii.eqb_eq in E. subst c. exists EmptyString, s.
      split; reflexivity.
    + destruct (IH H) as (a & b & -> & Ha).
      exists (String c a), b. cbn. rewrite E, Ha. split; reflexivity.
Qed.

Lemma beforeFirstAt_has_no_at :
  forall s, containsAt (beforeFirstAt s) = false.
Proof.
  induction s as [|c s IH]; cbn.
  - reflexivity.
  - destruct (Ascii.eqb c "@") eqn:E; cbn; [reflexivity|].
    rewrite E, IH. reflexivity.
Qed.

Lemma fromDomain_is_second_piece_general :
  forall a b,
    containsAt a = false ->
    fromDomain (a ++ String "@" b) = Some (beforeFirstAt b).
Proof.
  intros a b Ha. unfold fromDomain. rewrite (split_at_first_at a b Ha).
  destruct (split_head_beforeFirstAt b) as [rest ->]. reflexivity.
Qed.

(** X14.  The domain that is looked up is [undefined] exactly for a [from]
    without ['@'], and a domain that is looked up never contains an ['@']:
    no row whose domain contains one can be matched. *)
Theorem fromDomain_defined_iff_at :
  forall from,
    (fromDomain from = None <-> containsAt from = false)
    /\ (forall domain, fromDomain from = Some domain -> containsAt domain = false).
Proof.
  intros from. destruct (containsAt from) eqn:C.
  - destruct (containsAt_split from C) as (a & b & -> & Ha).
    rewrite (fromDomain_is_second_piece_general a b Ha). split.
    + split; discriminate.
    + intros domain H. injection H as <-. apply beforeFirstAt_has_no_at.
  - rewrite (fromDomain_without_at from C). split.
    + split; reflexivity.
    + intros domain H. discriminate H.
Qed.

(** ** The session resolver, further *)

Lemma get_remove_same :
  forall (A : Type) k (o : list (string * A)), Js.get k (Js.remove k o) = None.
Proof.
  intros A k o. induction o as [|[k' v] o IH]; cbn.
  - reflexivity.
  - destruct (String.eqb k' k) eqn:E; [exact IH|].
    cbn. rewrite E. exact IH.
Qed.

Lemma get_remove_other :
  forall (A : Type) k k' (o : list (string * A)),
    k' <> k -> Js.get k' (Js.remove k o) = Js.get k' o.
Proof.
  intros A k k' o Hne. induction o as [|[k0 v] o IH]; cbn.
  - reflexivity.
  - destruct (String.eqb k0 k) eqn:E.
    + apply String.eqb_eq in E. subst k0.
      apply String.eqb_neq in Hne. rewrite String.eqb_sym in Hne.
      rewrite Hne. exact IH.
    + cbn. destruct (String.eqb k0 k'); [reflexivity | exact IH].
Qed.

Lemma after_nil :
  forall (A : Type) (run : Completion A * World * list Event), after [] run = run.
Proof. intros A [[c w] evs]. reflexivity. Qed.

(** X15.  A request without the session cookie, or with an empty one, goes
    straight to the downstream: the middleware is [next()] on the same
    context, with no decoding and no datastore call before it. *)
Theorem missing_or_empty_cookie_is_anonymous :
  forall env (Response : Type) (next : APIContext -> M Response) context w,
    Js.get (TOKEN_COOKIE_NAME env) (cookies context) = None
    \/ Js.get (TOKEN_COOKIE_NAME env) (cookies context) = Some "" ->
    onRequest env context next w = next context w.
Proof.
  intros env Response next context w H.
  apply onRequest_without_token.
  destruct H as [-> | ->]; reflexivity.
Qed.

Lemma missing_or_empty_cookie_is_anonymous_witness :
  onRequest Sample.env (Sample.browser "") Sample.next Sample.world
  = Sample.next (Sample.browser "") Sample.world.
Proof.
  apply missing_or_empty_cookie_is_anonymous. right. reflexivity.
Defined.

(** X16.  A token whose subject is not the id of any user: the downstream runs in
    a context from which the session cookie is gone - looking it up gives
    nothing - while every other cookie, the request headers and the locals
    are as they were. *)
Theorem unknown_user_clears_only_the_session_cookie :
  forall env (Response : Type) (next : APIContext -> M Response)
         context w token payload,
    Js.whenTruthy (Js.get (TOKEN_COOKIE_NAME env) (cookies context)) = Some token ->
    decodeToken env (tick w) token = inr payload ->
    dbFaultAt env (S (tick w)) = None ->
    selectUser w (token_id payload) = None ->
    let context' := deleteCookie (TOKEN_COOKIE_NAME env) context in
    onRequest env context next w
    = after [EDecodeToken token; EFindUser (token_id payload)]
        (next context' (advance (advance w)))
    /\ Js.get (TOKEN_COOKIE_NAME env) (cookies context') = None
    /\ (forall name, name <> TOKEN_COOKIE_NAME env ->
                     Js.get name (cookies context') = Js.get name (cookies context))
    /\ locals context' = locals context
    /\ requestHeaders context' = requestHeaders context.
Proof.
  intros env Response next context w token payload Hc Hd Hf Hu context'.
  split; [apply onRequest_unknown_user; assumption|].
  split; [apply get_remove_same|].
  split; [intros name Hne; apply get_remove_other; exact Hne|].
  split; reflexivity.
Qed.

Lemma unknown_user_clears_only_the_session_cookie_witness :
  let context := Cases.browser "jwt:user_2" in
  let context' := deleteCookie "__mly_jt__" context in
  onRequest Sample.env context Sample.next Sample.world
  = after [EDecodeToken "jwt:user_2"; EFindUser "user_2"]
      (Sample.next context' (advance (advance Sample.world)))
  /\ Js.get "__mly_jt__" (cookies context') = None
  /\ Js.get "theme" (cookies context') = Some "dark"
  /\ currentUserId (locals context') = Some "stale".
Proof.
  intros context context'.
  destruct (unknown_user_clears_only_the_session_cookie
              Sample.env APIContext Sample.next context Sample.world
              "jwt:user_2" {| token_id := "user_2" |}
              eq_refl eq_refl eq_refl eq_refl) as (H1 & H2 & H3 & H4 & _).
  split; [exact H1|]. split; [exact H2|]. split.
  - exact (H3 "theme" ltac:(discriminate)).
  - exact (f_equal currentUserId H4).
Defined.

(** X17.  A datastore error during the user lookup never reaches the caller: the
    downstream runs in both build modes.  Outside development the session
    cookie is cleared and nothing is logged; in development the error is
    logged and the context is left as it was. *)
Theorem datastore_error_never_propagates :
  forall env (Response : Type) (next : APIContext -> M Response)
         context w token payload msg,
    Js.whenTruthy (Js.get (TOKEN_COOKIE_NAME env) (cookies context)) = Some token ->
    decodeToken env (tick w) token = inr payload ->
    dbFaultAt env (S (tick w)) = Some msg ->
    onRequest env context next w
    = after ([EDecodeToken token; EFindUser (token_id payload)]
             ++ (if DEV env then [ELogError (DatastoreError msg)] else []))
        (next (if DEV env then context
               else deleteCookie (TOKEN_COOKIE_NAME env) context)
              (advance (advance w))).
Proof.
  intros env Response next context w token payload msg Hc Hd Hf.
  destruct (DEV env) eqn:Hdev.
  - apply onRequest_datastore_error_in_development with (msg := msg); assumption.
  - apply onRequest_datastore_error_in_production with (msg := msg); assumption.
Qed.

Lemma datastore_error_never_propagates_witness :
  (let env := Cases.faulty 1 false in
   let context := Cases.browser "jwt:user_1" in
   onRequest env context Sample.next Sample.world
   = (Normal (deleteCookie "__mly_jt__" context),
      advance (advance Sample.world),
      [EDecodeToken "jwt:user_1"; EFindUser "user_1"]))
  /\ (let env := Cases.faulty 1 true in
      let context := Cases.browser "jwt:user_1" in
      onRequest env context Sample.next Sample.world
      = (Normal context,
         advance (advance Sample.world),
         [EDecodeToken "jwt:user_1"; EFindUser "user_1";
          ELogError (DatastoreError "SQLITE_BUSY")])).
Proof.
  split; intros env context.
  - exact (datastore_error_never_propagates
             env APIContext Sample.next context Sample.world
             "jwt:user_1" {| token_id := "user_1" |} "SQLITE_BUSY"
             eq_refl eq_refl eq_refl).
  - exact (datastore_error_never_propagates
             env APIContext Sample.next context Sample.world
             "jwt:user_1" {| token_id := "user_1" |} "SQLITE_BUSY"
             eq_refl eq_refl eq_refl).
Defined.

Lemma find_user_found :
  forall id us u,
    find (fun u => String.eqb (User.id u) id) us = Some u ->
    In u us /\ User.id u = id.
Proof.
  intros id us u H. apply find_some in H. destruct H as [Hin H].
  split; [exact Hin | apply String.eqb_eq, H].
Qed.

(** The run of the middleware for a token that decodes to the id of a
    user. *)
Lemma onRequest_known_user :
  forall env (Response : Type) (next : APIContext -> M Response)
         context w token payload u,
    Js.whenTruthy (Js.get (TOKEN_COOKIE_NAME env) (cookies context)) = Some token ->
    decodeToken env (tick w) token = inr payload ->
    dbFaultAt env (S (tick w)) = None ->
    find (fun u => String.eqb (User.id u) (token_id payload)) (users w) = Some u ->
    onRequest env context next w
    = after [EDecodeToken token; EFindUser (token_id payload);
             EConsoleLog dashes None;
             EConsoleLog "Current User: " (Some (exposed u));
             EConsoleLog dashes None]
        (next (setCurrentUser (exposed u) context) (advance (advance w))).
Proof.
  intros env Response next context w token payload u Hc Hd Hf Hu.
  unfold onRequest, resolveUser, bind, tryCatch, callDecodeToken,
    findFirstUser, dbCall, consoleLog, ret, after.
  rewrite Hc, Hd. cbn [tick advance]. rewrite Hf.
  change (selectUser (advance w)) with (selectUser w).
  unfold selectUser. rewrite Hu.
  cbn. destruct (next _ _) as [[c w1] evs]. reflexivity.
Qed.

(** X18.  Every way through the middleware.  Either [decodeToken] refuses the
    cookie's token and its error is thrown, or the downstream is run, once,
    after the middleware's own effects.  The middleware leaves the request
    headers, every cookie but the session cookie, and all tables as they
    are.  It leaves the locals as they are, or it sets them, with the cookies
    untouched, to the [id], [email] and [name] and to the id of a row of
    [users] whose id is the subject of the decoded token: the current user
    is never anything else. *)
Theorem resolver_outcomes :
  forall env (Response : Type) (next : APIContext -> M Response) context w,
    (exists token e,
        Js.whenTruthy (Js.get (TOKEN_COOKIE_NAME env) (cookies context)) = Some token
        /\ decodeToken env (tick w) token = inl e
        /\ onRequest env context next w
           = (Throw e, advance w, [EDecodeToken token]))
    \/ (exists context' w1 evs,
           onRequest env context next w = after evs (next context' w1)
           /\ requestHeaders context' = requestHeaders context
           /\ (forall name, name <> TOKEN_COOKIE_NAME env ->
                 Js.get name (cookies context') = Js.get name (cookies context))
           /\ users w1 = users w
           /\ projects w1 = projects w
           /\ projectIdentities w1 = projectIdentities w
           /\ emailLogs w1 = emailLogs w
           /\ emailLogEvents w1 = emailLogEvents w
           /\ (locals context' = locals context
               \/ exists token payload u,
                    Js.whenTruthy (Js.get (TOKEN_COOKIE_NAME env) (cookies context))
                    = Some token
                    /\ decodeToken env (tick w) token = inr payload
                    /\ In u (users w)
                    /\ User.id u = token_id payload
                    /\ cookies context' = cookies context
                    /\ locals context'
                       = {| currentUser := Some (exposed u);
                            currentUserId := Some (User.id u) |})).
Proof.
  intros env Response next context w.
  destruct (Js.whenTruthy (Js.get (TOKEN_COOKIE_NAME env) (cookies context)))
    as [token|] eqn:Hc.
  2: { right. exists context, w, [].
       rewrite after_nil, (onRequest_without_token env Response next context w Hc).
       repeat split. left. reflexivity. }
  destruct (decodeToken env (tick w) token) as [e|payload] eqn:Hd.
  { left. exists token, e. split; [reflexivity|]. split; [exact Hd|].
    apply onRequest_decode_failure; assumption. }
  right.
  destruct (dbFaultAt env (S (tick w))) as [msg|] eqn:Hf.
  { destruct (DEV env) eqn:Hdev; eexists; eexists; eexists.
    - split; [apply onRequest_datastore_error_in_development with (msg := msg);
              eassumption|].
      repeat split. left. reflexivity.
    - split; [apply onRequest_datastore_error_in_production with (msg := msg);
              eassumption|].
      repeat split; try (left; reflexivity).
      intros name Hne. apply get_remove_other. exact Hne. }
  destruct (find (fun u => String.eqb (User.id u) (token_id payload)) (users w))
    as [u|] eqn:Hu.
  - destruct (find_user_found _ _ _ Hu) as [Hin Hid].
    eexists. eexists. eexists.
    split; [apply (onRequest_known_user env Response next context w token
                     payload u Hc Hd Hf Hu)|].
    repeat split. right. exists token, payload, u.
    repeat split; assumption.
  - assert (Hsel : selectUser w (token_id payload) = None).
    { unfold selectUser. rewrite Hu. reflexivity. }
    eexists. eexists. eexists.
    split; [apply onRequest_unknown_user; eassumption|].
    repeat split; try (left; reflexivity).
    intros name Hne. apply get_remove_other. exact Hne.
Qed.
